(** * sipgen/pybinding.c: the Python bindings of the sip5 code generator

    A shallow embedding of the binding layer: the string-list, parse-tree and
    filesystem-name convertors, the warning and fatal-error reporters with
    their static state, and the eight wrappers registered in the method table
    of [PyInit_code_generator]. *)

From Stdlib Require Import ZArith Ascii String.
From stdpp Require Import gmap strings list.

Set Warnings "-register-all,-clear-no-such-hyp".

Open Scope Z_scope.

(** ** C data *)

(** A native address; [NULL] is 0. *)
Definition ptr := N.
Definition NULL : ptr := 0%N.

(** A [char *]: either the null pointer or a pointer to the characters that
    precede the terminating NUL. *)
Definition cstr := option string.

(** Modelled from the spec: the [stringList] structure of sip.h, which is
    not in this file; the spec calls it an ordered singly-linked sequence of
    byte strings, and [appendString] uses its fields [s] and [next]. The
    embedding keeps the [s] field of each node, in chain order; the empty
    list is the null pointer. *)
Definition stringList := list cstr.

(** The line terminator [\n]. *)
Definition newline : ascii := "010"%char.

(** [strchr(s, c)]: the offset of the first [c] in [s], [None] for the null
    result. *)
Fixpoint strchr (s : string) (c : ascii) : option nat :=
  match s with
  | EmptyString => None
  | String a rest => if Ascii.eqb a c then Some 0%nat else S <$> strchr rest c
  end.

(** What a [char *] into a buffer reads: the characters before the first
    NUL. *)
Fixpoint until_NUL (s : string) : string :=
  match s with
  | EmptyString => EmptyString
  | String a rest =>
      if Ascii.eqb a "000"%char then EmptyString else String a (until_NUL rest)
  end.

(** The arguments of a variadic call. *)
Inductive va_arg :=
  | va_int (n : Z)
  | va_str (s : string)
  | va_char (c : ascii).

Definition va_list := list va_arg.

(** Modelled from the spec: the [Warning] enumeration of sip.h, which is not
    in this file; the spec gives the two categories, the ones the [switch]
    of [warning] names. *)
Inductive Warning := ParserWarning | DeprecationWarning.

#[export] Instance Warning_eq_dec : EqDecision Warning.
Proof. solve_decision. Defined.

Definition Warning_eqb (a b : Warning) : bool :=
  match a, b with
  | ParserWarning, ParserWarning | DeprecationWarning, DeprecationWarning => true
  | _, _ => false
  end.

(** Modelled from the spec: the [KwArgs] enumeration of sip.h, with the two
    values [py_parse] chooses between for the keyword-argument mode. *)
Inductive KwArgs := NoKwArgs | AllKwArgs.

(** The two [FILE *] values [py_parse] passes on. *)
Inductive FILEp := FILE_NULL | FILE_stdin.

(** ** A printf for the examples

    The theorems below hold for any formatting function; this one, which
    expands [%s], [%d], [%c] and [%%], instantiates them. *)

Fixpoint digits_of (fuel : nat) (n : N) (acc : string) : string :=
  match fuel with
  | O => acc
  | S fuel' =>
      let d := String (ascii_of_N (48 + n mod 10)) acc in
      if (n / 10 =? 0)%N then d else digits_of fuel' (n / 10)%N d
  end.

Definition decimal (z : Z) : string :=
  let n := Z.abs_N z in
  let body := digits_of (S (N.to_nat (N.log2 n))) n "" in
  if z <? 0 then String "-" body else body.

Fixpoint c_vsprintf (fmt : string) (ap : va_list) : string :=
  match fmt with
  | EmptyString => ""
  | String "%" (String "%" rest) => String "%" (c_vsprintf rest ap)
  | String "%" (String "s" rest) =>
      match ap with
      | va_str s :: ap' => s +:+ c_vsprintf rest ap'
      | _ => "%s" +:+ c_vsprintf rest ap
      end
  | String "%" (String "d" rest) =>
      match ap with
      | va_int n :: ap' => decimal n +:+ c_vsprintf rest ap'
      | _ => "%d" +:+ c_vsprintf rest ap
      end
  | String "%" (String "c" rest) =>
      match ap with
      | va_char c :: ap' => String c (c_vsprintf rest ap')
      | _ => "%c" +:+ c_vsprintf rest ap
      end
  | String a rest => String a (c_vsprintf rest ap)
  end.

(** ** Python objects *)

(** The objects the wrappers can be handed. [str] is a sequence of code
    points; a capsule is a reference into the object store of the
    interpreter, where its mutable fields live. *)
Inductive PyObject :=
  | Py_None
  | PyBool (b : bool)
  | PyLong (n : Z)
  | PyUnicode (u : list Z)
  | PyBytes (s : string)
  | PyList (items : list PyObject)
  | PyTuple (items : list PyObject)
  | PyCapsule (ob : nat).

Inductive PyExc :=
  | PyExc_TypeError (msg : string)
  | PyExc_ValueError (msg : string)
  | PyExc_OverflowError (msg : string)
  | PyExc_UnicodeEncodeError (codec : string).

(** The fields of a capsule that [PyCapsule_New] and [PyCapsule_GetPointer]
    use. *)
Record PyCapsuleObject := mkCapsule {
  pointer : ptr;
  name : cstr }.

Definition PyCapsule_CheckExact (obj : PyObject) : bool :=
  match obj with PyCapsule _ => true | _ => false end.

Definition PyList_Check (obj : PyObject) : bool :=
  match obj with PyList _ => true | _ => false end.

(** [PyObject_IsTrue] on these objects. *)
Definition PyObject_IsTrue (obj : PyObject) : bool :=
  match obj with
  | Py_None => false
  | PyBool b => b
  | PyLong n => negb (n =? 0)
  | PyUnicode u => negb (List.length u =? 0)%nat
  | PyBytes s => negb (String.length s =? 0)%nat
  | PyList items | PyTuple items => negb (List.length items =? 0)%nat
  | PyCapsule _ => true
  end.

Definition bad_argument : PyExc :=
  PyExc_TypeError "bad argument type for built-in operation".

(** How a codec fails on a [str]: a code point the encoding cannot
    represent, or an embedded null character. *)
Inductive EncodeError :=
  | unencodable (codec : string)
  | embedded_null.

(** The exception a failed codec leaves in the error indicator. *)
Definition encode_exc (e : EncodeError) : PyExc :=
  match e with
  | unencodable codec => PyExc_UnicodeEncodeError codec
  | embedded_null => PyExc_ValueError "embedded null character"
  end.

(** ** Codecs for the examples

    The theorems hold for any codec; these two, UTF-8 as a UTF-8 locale has
    it (strict for the locale codec, surrogateescape for the filesystem
    codec), instantiate them. *)

Definition chr (n : Z) : ascii := ascii_of_N (Z.to_N n).

Definition utf8_scalar (c : Z) : string :=
  if c <? 128 then String (chr c) ""
  else if c <? 2048 then
    String (chr (192 + c / 64)) (String (chr (128 + c mod 64)) "")
  else if c <? 65536 then
    String (chr (224 + c / 4096))
      (String (chr (128 + (c / 64) mod 64)) (String (chr (128 + c mod 64)) ""))
  else
    String (chr (240 + c / 262144))
      (String (chr (128 + (c / 4096) mod 64))
         (String (chr (128 + (c / 64) mod 64)) (String (chr (128 + c mod 64)) ""))).

Definition is_surrogate (c : Z) : bool := (55296 <=? c) && (c <=? 57343).

Definition in_str_range (c : Z) : bool := (0 <=? c) && (c <=? 1114111).

Fixpoint utf8_strict (u : list Z) : EncodeError + string :=
  match u with
  | [] => inr ""
  | c :: rest =>
      if is_surrogate c || negb (in_str_range c)
      then inl (unencodable "utf-8")
      else match utf8_strict rest with
           | inl e => inl e
           | inr s => inr (utf8_scalar c +:+ s)
           end
  end.

Fixpoint utf8_surrogateescape (u : list Z) : EncodeError + string :=
  match u with
  | [] => inr ""
  | c :: rest =>
      match utf8_surrogateescape rest with
      | inl e => inl e
      | inr s =>
          if (56448 <=? c) && (c <=? 56575) then inr (String (chr (c - 56320)) s)
          else if is_surrogate c || negb (in_str_range c)
          then inl (unencodable "utf-8")
          else inr (utf8_scalar c +:+ s)
      end
  end.

(** The locale codec refuses a [str] with an embedded null character. *)
Definition utf8_locale (u : list Z) : EncodeError + string :=
  if existsb (Z.eqb 0) u then inl embedded_null
  else utf8_strict u.

(** ** The calls into the code generator *)

Inductive native_call :=
  | N_parse (pt : ptr) (file : FILEp) (filename : cstr) (strict : bool)
      (versions backstops xfeatures : stringList) (kwArgs : KwArgs)
      (protHack : bool)
  | N_transform (pt : ptr) (strict : bool)
  | N_generateCode (pt : ptr) (codeDir srcSuffix : cstr)
      (exceptions tracing releaseGIL : bool) (parts : Z)
      (versions xfeatures : stringList) (docs py_debug : bool) (sipName : cstr)
  | N_generateExtracts (pt : ptr) (extracts : stringList)
  | N_generateAPI (pt module : ptr) (apiFile : cstr)
  | N_generateXML (pt module : ptr) (xmlFile : cstr)
  | N_generateTypeHints (pt module : ptr) (pyiFile : cstr).


(** ** The process and the interpreter *)

(** The state of the process outside the interpreter: the globals of the
    file, the two function-static [start] flags, what was written to
    [stderr], the allocation cursor of [sipMalloc] and the memory of the
    code generator, a word at each address in use. *)
Record process := mkProcess {
  sipVersion : Z;
  sipVersionStr : cstr;
  includeDirList : stringList;
  warnings : bool;
  warnings_are_fatal : bool;
  warning_start : bool;
  fatalStart_start : bool;
  stderr : string;
  brk : positive;
  heap : gmap N N }.

(** A C function that may call [exit]. *)
Inductive nresult (A : Type) :=
  | NRet (a : A) (p : process)
  | NExit (status : Z) (p : process).
Arguments NRet {A} a p.
Arguments NExit {A} status p.

(** The process as the function leaves it, and the status it exited with. *)
Definition final {A} (r : nresult A) : process :=
  match r with NRet _ p | NExit _ p => p end.

Definition exit_status {A} (r : nresult A) : option Z :=
  match r with NRet _ _ => None | NExit status _ => Some status end.

(** The interpreter next to it: the error indicator and the capsules of
    the object store. *)
Record world := mkWorld {
  proc : process;
  PyErr : option PyExc;
  capsules : gmap nat PyCapsuleObject }.

(** What the file takes from outside: the C library, the interpreter, sip.h
    and the code generator. *)
Class Environment := {
  (** [vfprintf]'s expansion of a format with its arguments *)
  vsprintf : string → va_list → string;
  (** the codecs of the interpreter on a [str]: [PyUnicode_EncodeLocale]
      with null [errors], [PyUnicode_EncodeFSDefault], and the UTF-8 form
      the [s] format unit takes *)
  EncodeLocale : list Z → EncodeError + string;
  EncodeFSDefault : list Z → EncodeError + string;
  AsUTF8 : list Z → EncodeError + string;
  (** [sizeof (stringList)], [sizeof (sipSpec)] and
      [offsetof (sipSpec, module)] *)
  sizeof_stringList : positive;
  sizeof_sipSpec : positive;
  offsetof_module : N;
  (** what a call into the code generator does to the process *)
  native : native_call → process → nresult unit;
  (** what an [int] holds, as a truth value, after a [char *] to the given
      string was stored through its address, and what a local [char *]
      holds that nothing was stored into *)
  int_holding_pointer : cstr → bool;
  uninitialised_pointer : cstr }.

(** ** Field updates *)

Definition set_stderr (s : string) (p : process) : process :=
  mkProcess (sipVersion p) (sipVersionStr p) (includeDirList p) (warnings p)
    (warnings_are_fatal p) (warning_start p) (fatalStart_start p) s (brk p)
    (heap p).

Definition set_warning_start (b : bool) (p : process) : process :=
  mkProcess (sipVersion p) (sipVersionStr p) (includeDirList p) (warnings p)
    (warnings_are_fatal p) b (fatalStart_start p) (stderr p) (brk p) (heap p).

Definition set_fatalStart_start (b : bool) (p : process) : process :=
  mkProcess (sipVersion p) (sipVersionStr p) (includeDirList p) (warnings p)
    (warnings_are_fatal p) (warning_start p) b (stderr p) (brk p) (heap p).

Definition set_brk (b : positive) (p : process) : process :=
  mkProcess (sipVersion p) (sipVersionStr p) (includeDirList p) (warnings p)
    (warnings_are_fatal p) (warning_start p) (fatalStart_start p) (stderr p) b
    (heap p).

Definition set_sipVersion (v : Z) (p : process) : process :=
  mkProcess v (sipVersionStr p) (includeDirList p) (warnings p)
    (warnings_are_fatal p) (warning_start p) (fatalStart_start p) (stderr p)
    (brk p) (heap p).

Definition set_sipVersionStr (s : cstr) (p : process) : process :=
  mkProcess (sipVersion p) s (includeDirList p) (warnings p)
    (warnings_are_fatal p) (warning_start p) (fatalStart_start p) (stderr p)
    (brk p) (heap p).

Definition set_includeDirList (l : stringList) (p : process) : process :=
  mkProcess (sipVersion p) (sipVersionStr p) l (warnings p)
    (warnings_are_fatal p) (warning_start p) (fatalStart_start p) (stderr p)
    (brk p) (heap p).

Definition set_warnings (b : bool) (p : process) : process :=
  mkProcess (sipVersion p) (sipVersionStr p) (includeDirList p) b
    (warnings_are_fatal p) (warning_start p) (fatalStart_start p) (stderr p)
    (brk p) (heap p).

Definition set_warnings_are_fatal (b : bool) (p : process) : process :=
  mkProcess (sipVersion p) (sipVersionStr p) (includeDirList p) (warnings p) b
    (warning_start p) (fatalStart_start p) (stderr p) (brk p) (heap p).

Definition set_heap (h : gmap N N) (p : process) : process :=
  mkProcess (sipVersion p) (sipVersionStr p) (includeDirList p) (warnings p)
    (warnings_are_fatal p) (warning_start p) (fatalStart_start p) (stderr p)
    (brk p) h.

Definition set_proc (p : process) (w : world) : world :=
  mkWorld p (PyErr w) (capsules w).

Definition PyErr_Set (e : PyExc) (w : world) : world :=
  mkWorld (proc w) (Some e) (capsules w).

Definition set_capsules (m : gmap nat PyCapsuleObject) (w : world) : world :=
  mkWorld (proc w) (PyErr w) m.

(** [fputs] on [stderr]. *)
Definition eprint (s : string) (p : process) : process :=
  set_stderr (stderr p +:+ s) p.

(** ** Outcomes

    A wrapper returns an object, or returns null with the error indicator
    set ([Raise]), or does not return because the code generator called
    [exit]; beside the outcome stand the calls it made into the code
    generator, in order. *)
Inductive outcome (A : Type) :=
  | Ret (a : A) (w : world)
  | Raise (w : world)
  | Exit (status : Z) (w : world).
Arguments Ret {A} a w.
Arguments Raise {A} w.
Arguments Exit {A} status w.


Definition M (A : Type) : Type := world → list native_call * outcome A.

Definition ret {A} (a : A) : M A := λ w, ([], Ret a w).

Definition bind {A B} (m : M A) (k : A → M B) : M B :=
  λ w,
    match m w with
    | (tr, Ret a w') => let '(tr', o) := k a w' in (tr ++ tr', o)
    | (tr, Raise w') => (tr, Raise w')
    | (tr, Exit status w') => (tr, Exit status w')
    end.

(** [run m w Q]: what [m] does from [w], the calls it makes and its
    outcome, satisfies [Q]. *)
Definition run {A} (m : M A) (w : world)
    (Q : list native_call → outcome A → Prop) : Prop :=
  Q (m w).1 (m w).2.

#[export] Instance M_ret : MRet M := @ret.
#[export] Instance M_bind : MBind M := λ A B k m, bind m k.

(** ** The binding layer *)

Section Binding.

Context `{Environment}.

(** *** The allocator *)

(** Modelled from the spec: [sipMalloc] is declared in sip.h and defined
    outside this file; the spec names it as the native allocator and says
    no more. Here it hands out the address under the cursor, which is
    never null, and moves the cursor past the block; running out of memory
    is not modelled. *)
Definition sipMalloc (size : positive) (p : process) : ptr * process :=
  (Npos (brk p), set_brk (brk p + size)%positive p).

(** *** appendString *)

(** The walk [while ( *headp != NULL) headp = &( *headp) -> next] and the
    store [*headp = sl] of the node whose [s] is the string and whose
    [next] is null. *)
Fixpoint append_at_tail (head : stringList) (sl : cstr) : stringList :=
  match head with
  | [] => [sl]
  | node :: next => node :: append_at_tail next sl
  end.

Definition appendString (head : stringList) (s : cstr) (p : process)
  : stringList * process :=
  let '(_, p') := sipMalloc sizeof_stringList p in
  (append_at_tail head s, p').

(** The process after [n] list nodes were allocated. *)
Definition after_nodes (n : nat) (p : process) : process :=
  Nat.iter n (λ q, (sipMalloc sizeof_stringList q).2) p.

(** *** warning, fatal, fatalStart *)

Definition wstr (w : Warning) : string :=
  match w with
  | ParserWarning => "Parser warning"
  | DeprecationWarning => "Deprecation warning"
  end.

Definition warning (w : Warning) (fmt : string) (ap : va_list) (p : process)
  : nresult unit :=
  if negb (warnings p) && negb (Warning_eqb w DeprecationWarning) then NRet tt p
  else
    let p1 :=
      if warning_start p
      then set_warning_start false (eprint ("sip5: " +:+ wstr w +:+ ": ") p)
      else p in
    let p2 := eprint (vsprintf fmt ap) p1 in
    match strchr fmt newline with
    | Some _ =>
        if warnings_are_fatal p2 then NExit 1 p2
        else NRet tt (set_warning_start true p2)
    | None => NRet tt p2
    end.

Definition fatalStart (p : process) : process :=
  if fatalStart_start p
  then set_fatalStart_start false (eprint "sip5: " p)
  else p.

Definition fatal (fmt : string) (ap : va_list) (p : process) : nresult unit :=
  let p1 := fatalStart p in
  let p2 := eprint (vsprintf fmt ap) p1 in
  NExit 1 p2.

(** A run of calls to [warning], as the code generator makes them; it
    stops at the call that exits. *)
Fixpoint warning_run (calls : list (Warning * string * va_list)) (p : process)
  : nresult unit :=
  match calls with
  | [] => NRet tt p
  | (w, fmt, ap) :: rest =>
      match warning w fmt ap p with
      | NRet _ p' => warning_run rest p'
      | NExit status p' => NExit status p'
      end
  end.

(** The label that opens a message of a category. *)
Definition label (w : Warning) : string := "sip5: " +:+ wstr w +:+ ": ".

(** What the fragments of a message expand to, one after the other. *)
Fixpoint expansion (frags : list (string * va_list)) : string :=
  match frags with
  | [] => ""
  | (fmt, ap) :: rest => vsprintf fmt ap +:+ expansion rest
  end.

(** The calls that report the fragments under a category. *)
Definition report (w : Warning) (frags : list (string * va_list))
  : list (Warning * string * va_list) :=
  map (λ f, (w, f.1, f.2)) frags.

(** A call is discarded when the category is not [DeprecationWarning] and
    warnings are off. *)
Definition suppressed (w : Warning) (p : process) : bool :=
  match w with
  | ParserWarning => negb (warnings p)
  | DeprecationWarning => false
  end.

(** A fragment completes the message when its format has a line
    terminator. *)
Definition completes (fmt : string) : bool :=
  bool_decide (is_Some (strchr fmt newline)).

(** *** The interpreter's side *)

(** A codec applied to an object: one that is not a [str] is a bad
    argument. *)
Definition encode_with (codec : list Z → EncodeError + string) (obj : PyObject)
  : PyExc + string :=
  match obj with
  | PyUnicode u =>
      match codec u with
      | inl e => inl (encode_exc e)
      | inr bytes => inr bytes
      end
  | _ => inl bad_argument
  end.

Definition PyUnicode_EncodeLocale : PyObject → PyExc + string :=
  encode_with EncodeLocale.

Definition PyUnicode_EncodeFSDefault : PyObject → PyExc + string :=
  encode_with EncodeFSDefault.

Definition invalid_capsule : PyExc :=
  PyExc_ValueError "PyCapsule_GetPointer called with invalid PyCapsule object".

Definition incorrect_name : PyExc :=
  PyExc_ValueError "PyCapsule_GetPointer called with incorrect name".

Definition name_matches (name1 name2 : cstr) : bool :=
  match name1, name2 with
  | None, None => true
  | Some a, Some b => String.eqb a b
  | _, _ => false
  end.

(** [PyCapsule_GetPointer]: the stored pointer of a legal capsule (one
    whose pointer is not null) with the name asked for; otherwise null,
    with [ValueError] set. It reads the capsule and writes nothing to it. *)
Definition PyCapsule_GetPointer (obj : PyObject) (nm : cstr) (w : world)
  : ptr * world :=
  match obj with
  | PyCapsule ob =>
      match capsules w !! ob with
      | Some c =>
          if (pointer c =? NULL)%N then (NULL, PyErr_Set invalid_capsule w)
          else if name_matches nm (name c) then (pointer c, w)
          else (NULL, PyErr_Set incorrect_name w)
      | None => (NULL, PyErr_Set invalid_capsule w)
      end
  | _ => (NULL, PyErr_Set invalid_capsule w)
  end.

(** [PyCapsule_New] refuses a null pointer; otherwise the new capsule is a
    new object of the store. *)
Definition PyCapsule_New (pt : ptr) (nm : cstr) (w : world)
  : option PyObject * world :=
  if (pt =? NULL)%N
  then (None,
        PyErr_Set (PyExc_ValueError "PyCapsule_New called with null pointer") w)
  else
    let ob := fresh (dom (capsules w)) in
    (Some (PyCapsule ob), set_capsules (<[ob := mkCapsule pt nm]> (capsules w)) w).

(** *** The convertors

    A convertor is given the object and the variable it converts into; it
    returns its [int] result and what the variable holds afterwards.
    [PyBytes_AS_STRING] gives a pointer to the buffer of the bytes object;
    the filesystem codec can leave a NUL in it, and the pointer then reads
    up to that NUL. *)

Definition fs_convertor (obj : PyObject) (fsp : cstr) (w : world)
  : Z * cstr * world :=
  match obj with
  | Py_None => (1, None, w)
  | _ =>
      match PyUnicode_EncodeFSDefault obj with
      | inl e => (0, fsp, PyErr_Set e w)
      | inr bytes => (1, Some (until_NUL bytes), w)
      end
  end.

Definition sipSpec_convertor (obj : PyObject) (ptp : ptr) (w : world)
  : Z * ptr * world :=
  if negb (PyCapsule_CheckExact obj)
  then (0, ptp, PyErr_Set (PyExc_TypeError "parse tree expected") w)
  else
    let '(p, w') := PyCapsule_GetPointer obj None w in
    if (p =? NULL)%N then (0, p, w') else (1, p, w').

(** The loop of [stringList_convertor] over the items of the list. *)
Fixpoint stringList_items (items : list PyObject) (slp : stringList) (w : world)
  : Z * stringList * world :=
  match items with
  | [] => (1, slp, w)
  | item :: rest =>
      match PyUnicode_EncodeLocale item with
      | inl e => (0, slp, PyErr_Set e w)
      | inr el =>
          let '(slp', p') := appendString slp (Some el) (proc w) in
          stringList_items rest slp' (set_proc p' w)
      end
  end.

Definition stringList_convertor (obj : PyObject) (slp : stringList) (w : world)
  : Z * stringList * world :=
  let slp0 : stringList := [] in
  match obj with
  | Py_None => (1, slp0, w)
  | PyList items => stringList_items items slp0 w
  | _ => (0, slp0, PyErr_Set (PyExc_TypeError "list of str expected") w)
  end.

(** *** The wrappers *)

Definition raise {A} (e : PyExc) : M A := λ w, ([], Raise (PyErr_Set e w)).

(** A call into the code generator. *)
Definition invoke (c : native_call) : M unit :=
  λ w,
    match native c (proc w) with
    | NRet _ p => ([c], Ret tt (set_proc p w))
    | NExit status p => ([c], Exit status (set_proc p w))
    end.

Definition read {A} (f : world → A) : M A := λ w, ([], Ret (f w) w).

Definition update (f : process → process) : M unit :=
  λ w, ([], Ret tt (set_proc (f (proc w)) w)).

(** [PyArg_ParseTuple] first compares the size of the tuple with the
    number of format units. *)
Definition wrong_arity {A} (expected : nat) (args : list PyObject) : M A :=
  raise (PyExc_TypeError
           ("function takes exactly " +:+ decimal (Z.of_nat expected)
            +:+ " arguments (" +:+ decimal (Z.of_nat (List.length args))
            +:+ " given)")).

(** The format unit [O&] with a local variable: the variable is lost when
    the convertor returns 0. *)
Definition arg_conv {T} (conv : PyObject → T → world → Z * T * world)
    (obj : PyObject) (local : T) : M T :=
  λ w,
    let '(status, v, w') := conv obj local w in
    if status =? 0 then ([], Raise w') else ([], Ret v w').

(** The format unit [O&] with a global: what the convertor stored stays
    stored when it returns 0. *)
Definition arg_conv_global {T} (conv : PyObject → T → world → Z * T * world)
    (obj : PyObject) (get : process → T) (set : T → process → process)
    : M unit :=
  λ w,
    let '(status, v, w') := conv obj (get (proc w)) w in
    let w'' := set_proc (set v (proc w')) w' in
    if status =? 0 then ([], Raise w'') else ([], Ret tt w'').

(** The format unit [p]. *)
Definition arg_p (obj : PyObject) : M bool := ret (PyObject_IsTrue obj).

Definition INT_MAX : Z := 2147483647.
Definition INT_MIN : Z := -2147483648.

Definition as_long (obj : PyObject) : option Z :=
  match obj with
  | PyLong n => Some n
  | PyBool b => Some (if b then 1 else 0)
  | _ => None
  end.

(** The format unit [i]: a C [int], with overflow checked. *)
Definition arg_i (obj : PyObject) : M Z :=
  match as_long obj with
  | Some n =>
      if n <? INT_MIN
      then raise (PyExc_OverflowError "signed integer is less than minimum")
      else if INT_MAX <? n
      then raise (PyExc_OverflowError "signed integer is greater than maximum")
      else ret n
  | None => raise (PyExc_TypeError "an integer is required")
  end.

(** The format unit [I]: a C [unsigned int], without overflow checking. *)
Definition arg_I (obj : PyObject) : M Z :=
  match as_long obj with
  | Some n => ret (n mod 2 ^ 32)
  | None => raise (PyExc_TypeError "an integer is required")
  end.

(** The format unit [s]: the UTF-8 form of a [str] without a null
    character. *)
Definition arg_s (obj : PyObject) : M cstr :=
  match obj with
  | PyUnicode u =>
      match AsUTF8 u with
      | inl e => raise (encode_exc e)
      | inr s =>
          if existsb (Z.eqb 0) u
          then raise (PyExc_ValueError "embedded null character")
          else ret (Some s)
      end
  | _ => raise (PyExc_TypeError "argument must be str")
  end.

Definition py_set_globals (args : list PyObject) : M PyObject :=
  match args with
  | [a0; a1; a2; a3; a4] =>
      v ← arg_I a0;
      update (set_sipVersion v);;
      s ← arg_s a1;
      update (set_sipVersionStr s);;
      arg_conv_global stringList_convertor a2 includeDirList set_includeDirList;;
      b ← arg_p a3;
      update (set_warnings b);;
      f ← arg_p a4;
      update (set_warnings_are_fatal f);;
      mret Py_None
  | _ => wrong_arity 5 args
  end.

(** [pt = sipMalloc(sizeof (sipSpec))]. *)
Definition malloc_sipSpec : M ptr :=
  λ w, let '(pt, p) := sipMalloc sizeof_sipSpec (proc w) in
       ([], Ret pt (set_proc p w)).

(** [return PyCapsule_New(pt, NULL, NULL)]. *)
Definition return_capsule (pt : ptr) : M PyObject :=
  λ w,
    match PyCapsule_New pt None w with
    | (Some capsule, w') => ([], Ret capsule w')
    | (None, w') => ([], Raise w')
    end.

(** [(allKwArgs ? AllKwArgs : NoKwArgs)]. *)
Definition kwArgs_of (allKwArgs : bool) : KwArgs :=
  if allKwArgs then AllKwArgs else NoKwArgs.

(** The locals of a wrapper are not initialised; the convertors are handed
    a null pointer or an empty list for them, and every path that goes on
    to use a local has stored into it. *)
Definition py_parse (args : list PyObject) : M PyObject :=
  match args with
  | [a0; a1; a2; a3; a4; a5; a6] =>
      filename ← arg_conv fs_convertor a0 None;
      strict ← arg_p a1;
      versions ← arg_conv stringList_convertor a2 [];
      backstops ← arg_conv stringList_convertor a3 [];
      xfeatures ← arg_conv stringList_convertor a4 [];
      allKwArgs ← arg_p a5;
      protHack ← arg_p a6;
      pt ← malloc_sipSpec;
      let file := match filename with Some _ => FILE_NULL | None => FILE_stdin end in
      let filename := match filename with Some _ => filename | None => Some "stdin" end in
      invoke (N_parse pt file filename strict versions backstops xfeatures
                (kwArgs_of allKwArgs) protHack);;
      return_capsule pt
  | _ => wrong_arity 7 args
  end.

Definition py_transform (args : list PyObject) : M PyObject :=
  match args with
  | [a0; a1] =>
      pt ← arg_conv sipSpec_convertor a0 NULL;
      strict ← arg_p a1;
      invoke (N_transform pt strict);;
      mret Py_None
  | _ => wrong_arity 2 args
  end.

(** The format string of [py_generateCode], ["O&O&O&pppiO&O&ps"], has
    eleven units, and twelve variables are passed after it. So the tuple has
    eleven objects: the tenth is converted by [p] into [docs], and the
    eleventh by [s], whose [char *] is stored through the next address
    given, that of the [int] [py_debug]; nothing is stored into [sipName].
    What the code generator is handed for these two is what the environment
    says such variables hold. (Where a pointer is wider than an [int] the
    store also writes past [py_debug]; that is not followed here.) *)
Definition py_generateCode (args : list PyObject) : M PyObject :=
  match args with
  | [a0; a1; a2; a3; a4; a5; a6; a7; a8; a9; a10] =>
      pt ← arg_conv sipSpec_convertor a0 NULL;
      codeDir ← arg_conv fs_convertor a1 None;
      srcSuffix ← arg_conv fs_convertor a2 None;
      exceptions ← arg_p a3;
      tracing ← arg_p a4;
      releaseGIL ← arg_p a5;
      parts ← arg_i a6;
      versions ← arg_conv stringList_convertor a7 [];
      xfeatures ← arg_conv stringList_convertor a8 [];
      docs ← arg_p a9;
      stored ← arg_s a10;
      invoke (N_generateCode pt codeDir srcSuffix exceptions tracing releaseGIL
                parts versions xfeatures docs (int_holding_pointer stored)
                uninitialised_pointer);;
      mret Py_None
  | _ => wrong_arity 11 args
  end.

Definition py_generateExtracts (args : list PyObject) : M PyObject :=
  match args with
  | [a0; a1] =>
      pt ← arg_conv sipSpec_convertor a0 NULL;
      extracts ← arg_conv stringList_convertor a1 [];
      invoke (N_generateExtracts pt extracts);;
      mret Py_None
  | _ => wrong_arity 2 args
  end.

(** [pt->module]: the word at the offset of the field, null where
    [sipMalloc]'s zero fill was not written over. *)
Definition module_of (pt : ptr) : M ptr :=
  read (λ w, default NULL (heap (proc w) !! (pt + offsetof_module)%N)).

Definition py_generateAPI (args : list PyObject) : M PyObject :=
  match args with
  | [a0; a1] =>
      pt ← arg_conv sipSpec_convertor a0 NULL;
      apiFile ← arg_conv fs_convertor a1 None;
      module ← module_of pt;
      invoke (N_generateAPI pt module apiFile);;
      mret Py_None
  | _ => wrong_arity 2 args
  end.

Definition py_generateXML (args : list PyObject) : M PyObject :=
  match args with
  | [a0; a1] =>
      pt ← arg_conv sipSpec_convertor a0 NULL;
      xmlFile ← arg_conv fs_convertor a1 None;
      module ← module_of pt;
      invoke (N_generateXML pt module xmlFile);;
      mret Py_None
  | _ => wrong_arity 2 args
  end.

Definition py_generateTypeHints (args : list PyObject) : M PyObject :=
  match args with
  | [a0; a1] =>
      pt ← arg_conv sipSpec_convertor a0 NULL;
      pyiFile ← arg_conv fs_convertor a1 None;
      module ← module_of pt;
      invoke (N_generateTypeHints pt module pyiFile);;
      mret Py_None
  | _ => wrong_arity 2 args
  end.

(** The method table of [PyInit_code_generator]. *)
Inductive method :=
  | set_globals
  | parse
  | transform
  | generateCode
  | generateExtracts
  | generateAPI
  | generateXML
  | generateTypeHints.

Definition methods (m : method) : list PyObject → M PyObject :=
  match m with
  | set_globals => py_set_globals
  | parse => py_parse
  | transform => py_transform
  | generateCode => py_generateCode
  | generateExtracts => py_generateExtracts
  | generateAPI => py_generateAPI
  | generateXML => py_generateXML
  | generateTypeHints => py_generateTypeHints
  end.

(** The wrappers whose first argument is the parse tree. *)
Definition takes_handle (m : method) : bool :=
  match m with set_globals | parse => false | _ => true end.

(** The wrappers around a function of the code generator: all but
    [set_globals], which stores its arguments in the globals. *)
Definition wraps_native (m : method) : bool :=
  match m with set_globals => false | _ => true end.


(** The number of format units in the format string of a wrapper, which is
    the size [PyArg_ParseTuple] wants the tuple to have. The format string
    of [py_generateCode] has eleven units, one fewer than the variables
    passed after it; the properties stated with [arity] leave that wrapper
    out. *)
Definition arity (m : method) : nat :=
  match m with
  | set_globals => 5
  | parse => 7
  | generateCode => 11
  | transform | generateExtracts | generateAPI | generateXML
  | generateTypeHints => 2
  end.

(** The format units the wrappers use, [O&] told apart by the convertor
    passed with it. *)
Inductive format_unit :=
  | unit_I
  | unit_s
  | unit_p
  | unit_i
  | unit_fs
  | unit_sipSpec
  | unit_stringList.

(** The format strings of the wrappers: ["IsO&pp"], ["O&pO&O&O&pp"],
    ["O&p"], ["O&O&O&pppiO&O&ps"] and four times ["O&O&"]. *)
Definition format (m : method) : list format_unit :=
  match m with
  | set_globals => [unit_I; unit_s; unit_stringList; unit_p; unit_p]
  | parse =>
      [unit_fs; unit_p; unit_stringList; unit_stringList; unit_stringList;
       unit_p; unit_p]
  | transform => [unit_sipSpec; unit_p]
  | generateCode =>
      [unit_sipSpec; unit_fs; unit_fs; unit_p; unit_p; unit_p; unit_i;
       unit_stringList; unit_stringList; unit_p; unit_s]
  | generateExtracts => [unit_sipSpec; unit_stringList]
  | generateAPI | generateXML | generateTypeHints => [unit_sipSpec; unit_fs]
  end.

(** The error a conversion leaves in the error indicator when it fails. *)
Definition raised {A} (r : list native_call * outcome A) : option PyExc :=
  match r.2 with
  | Raise w' => PyErr w'
  | _ => None
  end.

(** The error with which the conversion of a format unit refuses an
    object, [None] when it converts. *)
Definition conversion_error (u : format_unit) (obj : PyObject) (w : world)
  : option PyExc :=
  match u with
  | unit_I => raised (arg_I obj w)
  | unit_s => raised (arg_s obj w)
  | unit_p => raised (arg_p obj w)
  | unit_i => raised (arg_i obj w)
  | unit_fs => raised (arg_conv fs_convertor obj None w)
  | unit_sipSpec => raised (arg_conv sipSpec_convertor obj NULL w)
  | unit_stringList => raised (arg_conv stringList_convertor obj [] w)
  end.

(** The error of the first object of a tuple that its format unit refuses,
    [None] when every object converts. *)
Fixpoint first_error (units : list format_unit) (args : list PyObject)
    (w : world) : option PyExc :=
  match units, args with
  | u :: units', obj :: args' =>
      match conversion_error u obj w with
      | Some e => Some e
      | None => first_error units' args' w
      end
  | _, _ => None
  end.

(** What [fs_convertor] stores for an object when it returns 1: the null
    pointer for [None], a pointer to the encoded bytes for a [str]. *)
Definition fs_converted (obj : PyObject) (v : cstr) : Prop :=
  (obj = Py_None ∧ v = None)
  ∨ ∃ u bytes, obj = PyUnicode u ∧ EncodeFSDefault u = inr bytes
               ∧ v = Some (until_NUL bytes).

(** [pt->module] as the memory of the process has it. *)
Definition module_field (p : process) (pt : ptr) : ptr :=
  default NULL (heap p !! (pt + offsetof_module)%N).

(** The call a generator wrapper with a file argument makes. *)
Definition generator_call (m : method) (pt module : ptr) (file : cstr)
  : option native_call :=
  match m with
  | generateAPI => Some (N_generateAPI pt module file)
  | generateXML => Some (N_generateXML pt module file)
  | generateTypeHints => Some (N_generateTypeHints pt module file)
  | _ => None
  end.

(** A call of a run that is not discarded and whose format has a line
    terminator. *)
Definition ends_message (p : process) (c : Warning * string * va_list) : bool :=
  negb (suppressed c.1.1 p) && completes c.1.2.

(** The capsule [ob] of the store wraps the address [pt], which is not
    null, under no name. *)
Definition wraps (ob : nat) (pt : ptr) (w : world) : Prop :=
  pt ≠ NULL ∧ capsules w !! ob = Some (mkCapsule pt None).

(** The errors with which [sipSpec_convertor] refuses its argument. *)
Definition handle_error (e : PyExc) : Prop :=
  e = PyExc_TypeError "parse tree expected" ∨ e = invalid_capsule
  ∨ e = incorrect_name.


End Binding.

(** ** An environment and states for the examples *)

(** A code generator that, on [parse], stores the address of the module in
    the parse tree and otherwise returns at once. *)
Definition example_native (c : native_call) (p : process) : nresult unit :=
  match c with
  | N_parse pt _ _ _ _ _ _ _ _ =>
      NRet tt (set_heap (<[pt := (pt + 8)%N]> (heap p)) p)
  | _ => NRet tt p
  end.

Definition example_env : Environment := {|
  vsprintf := c_vsprintf;
  EncodeLocale := utf8_locale;
  EncodeFSDefault := utf8_surrogateescape;
  AsUTF8 := utf8_strict;
  sizeof_stringList := 16;
  sizeof_sipSpec := 256;
  offsetof_module := 0;
  native := example_native;
  int_holding_pointer := λ _, true;
  uninitialised_pointer := None |}.

(** The process as the initialisers of the file leave it. *)
Definition initial_process : process :=
  mkProcess 0 None [] false false true true "" 4096 ∅.

Definition initial_world : world := mkWorld initial_process None ∅.

(** [str] objects of ASCII text. *)
Definition code_points (s : string) : list Z :=
  map (λ a, Z.of_N (N_of_ascii a)) (list_ascii_of_string s).

Definition py_str (s : string) : PyObject := PyUnicode (code_points s).

(** A line of text, with its terminator. *)
Definition line (s : string) : string := s +:+ String newline "".

(** The process after [set_globals] turned warnings on and made them
    fatal. *)
Definition strict_process : process :=
  set_warnings_are_fatal true (set_warnings true initial_process).

(** A call of [parse] on the standard input, and what it leaves with the
    example code generator. *)
Definition parse_stdin_args : list PyObject :=
  [Py_None; PyBool false; PyList [py_str "Qt_5_12"]; Py_None; PyList [];
   PyBool false; PyBool false].

Definition parse_stdin_call : native_call :=
  N_parse 4112%N FILE_stdin (Some "stdin") false [Some "Qt_5_12"] [] []
    NoKwArgs false.

Definition parsed_world : world :=
  mkWorld
    (mkProcess 0 None [] false false true true "" 4368 {[ 4112%N := 4120%N ]})
    None
    {[ 0%nat := mkCapsule 4112%N None ]}.

(** The process after [set_globals] turned warnings on and left them
    harmless. *)
Definition loud_process : process := set_warnings true initial_process.

(** A code generator whose [parse] cannot open its file and reports that
    with [fatal]. *)
Definition failing_native (c : native_call) (p : process) : nresult unit :=
  match c with
  | N_parse _ _ _ _ _ _ _ _ _ =>
      NExit 1
        (set_fatalStart_start false (eprint (line "sip5: Unable to open file") p))
  | _ => NRet tt p
  end.

Definition failing_env : Environment := {|
  vsprintf := c_vsprintf;
  EncodeLocale := utf8_locale;
  EncodeFSDefault := utf8_surrogateescape;
  AsUTF8 := utf8_strict;
  sizeof_stringList := 16;
  sizeof_sipSpec := 256;
  offsetof_module := 0;
  native := failing_native;
  int_holding_pointer := λ _, true;
  uninitialised_pointer := None |}.



(** A call of [set_globals] whose arguments all convert. *)
Definition set_globals_args : list PyObject :=
  [PyLong 327680; py_str "5.0.0"; PyList [py_str "/usr/share/sip"];
   PyBool true; PyBool false].

(** ** Properties *)

Lemma append_cons (a : ascii) (s t : string) :
  String a s +:+ t = String a (s +:+ t).
Proof. reflexivity. Qed.

Lemma append_empty_r (s : string) : s +:+ "" = s.
Proof.
  induction s as [|a s IH]; [done|]. by rewrite append_cons, IH.
Qed.

Lemma append_assoc (a b c : string) : (a +:+ b) +:+ c = a +:+ (b +:+ c).
Proof.
  induction a as [|x a IH]; [done|]. by rewrite !append_cons, IH.
Qed.

Lemma completes_true (fmt : string) :
  completes fmt = true ↔ ∃ n, strchr fmt newline = Some n.
Proof.
  unfold completes. rewrite bool_decide_eq_true. reflexivity.
Qed.

Lemma completes_false (fmt : string) :
  completes fmt = false ↔ strchr fmt newline = None.
Proof.
  unfold completes. rewrite bool_decide_eq_false, <- eq_None_not_Some.
  reflexivity.
Qed.

Section Reporter.

Context `{Environment}.

(** A call that is not discarded, in full. *)
Lemma warning_unfold (w : Warning) (fmt : string) (ap : va_list) (p : process) :
  suppressed w p = false →
  let out :=
    (stderr p +:+ (if warning_start p then label w else "")) +:+ vsprintf fmt ap in
  warning w fmt ap p =
    if completes fmt
    then if warnings_are_fatal p
         then NExit 1 (set_warning_start false (set_stderr out p))
         else NRet tt (set_warning_start true (set_stderr out p))
    else NRet tt (set_warning_start false (set_stderr out p)).
Proof.
  intros Hs out. subst out. unfold warning, label.
  replace (negb (warnings p) && negb (Warning_eqb w DeprecationWarning))
    with false by (destruct w; simpl in *; [by rewrite Hs | by rewrite andb_false_r]).
  destruct (completes fmt) eqn:Hc.
  - apply completes_true in Hc as [n ->].
    destruct p as [v vs inc wn wf [] fs err b hp]; simpl;
      rewrite ?append_empty_r; destruct wf; reflexivity.
  - apply completes_false in Hc as ->.
    destruct p as [v vs inc wn wf [] fs err b hp]; simpl;
      rewrite ?append_empty_r; reflexivity.
Qed.

(** What a call that is not discarded leaves on [stderr]. *)
Lemma warning_emits (w : Warning) (fmt : string) (ap : va_list) (p : process) :
  suppressed w p = false →
  stderr (final (warning w fmt ap p)) =
    (stderr p +:+ (if warning_start p then label w else "")) +:+ vsprintf fmt ap.
Proof.
  intros Hs. rewrite warning_unfold by done.
  destruct (completes fmt), (warnings_are_fatal p); reflexivity.
Qed.

Lemma warning_discards (fmt : string) (ap : va_list) (p : process) :
  warnings p = false → warning ParserWarning fmt ap p = NRet tt p.
Proof. intros Hw. unfold warning. by rewrite Hw. Qed.

(** No call changes the two policy flags. *)
Lemma warning_keeps_flags (w : Warning) (fmt : string) (ap : va_list) (p : process) :
  warnings (final (warning w fmt ap p)) = warnings p
  ∧ warnings_are_fatal (final (warning w fmt ap p)) = warnings_are_fatal p.
Proof.
  destruct p as [v vs inc wn wf ws fs err b hp]. unfold warning. simpl.
  destruct wn, w, ws, (strchr fmt newline), wf; done.
Qed.

(** C10: a [ParserWarning] reported while warnings are off returns with the
    process exactly as it was, so nothing is written, [start] keeps its
    value and the call cannot exit; in a run of calls the discarded ones can
    be left out without changing what the run does, so a message of the
    other category that is under way is neither completed nor labelled
    again by them. *)
Theorem warning_suppressed_leaves_state
    (fmt : string) (ap : va_list) (p : process) :
  warnings p = false →
  warning ParserWarning fmt ap p = NRet tt p
  ∧ ∀ calls,
      warning_run calls p =
      warning_run (filter (λ c, c.1.1 = DeprecationWarning) calls) p.
Proof.
  intros Hw. split; [by apply warning_discards|].
  intros calls. revert p Hw.
  induction calls as [|[[w f] a] calls IH]; intros p Hw; [done|].
  destruct w.
  - rewrite filter_cons_False by (simpl; discriminate).
    simpl. rewrite warning_discards by done. by apply IH.
  - rewrite filter_cons_True by done. simpl.
    pose proof (warning_keeps_flags DeprecationWarning f a p) as [Hk _].
    destruct (warning DeprecationWarning f a p) as [[] p'|]; [|done].
    apply IH. simpl in Hk. by rewrite Hk.
Qed.

(** C3, amended: a [ParserWarning] reported while warnings are off does
    nothing; a [DeprecationWarning] is written whatever the warnings flag
    says; and a call of either category that is not discarded exits with
    status 1 exactly when its format string has a line terminator and
    warnings are fatal. *)
Theorem warning_categories (fmt : string) (ap : va_list) (p : process) :
  (warnings p = false → warning ParserWarning fmt ap p = NRet tt p)
  ∧ stderr (final (warning DeprecationWarning fmt ap p)) =
      (stderr p +:+ (if warning_start p then "sip5: Deprecation warning: " else ""))
      +:+ vsprintf fmt ap
  ∧ (warnings p = true →
     stderr (final (warning ParserWarning fmt ap p)) =
       (stderr p +:+ (if warning_start p then "sip5: Parser warning: " else ""))
       +:+ vsprintf fmt ap)
  ∧ ∀ w, suppressed w p = false →
      exit_status (warning w fmt ap p) =
        if completes fmt && warnings_are_fatal p then Some 1 else None.
Proof.
  repeat split.
  - apply warning_discards.
  - by rewrite warning_emits.
  - intros Hw. rewrite warning_emits; [done | by simpl; rewrite Hw].
  - intros w Hs. rewrite warning_unfold by done.
    destruct (completes fmt), (warnings_are_fatal p); reflexivity.
Qed.

(** [fatalStart] writes its prefix once: a second call changes nothing. *)
Lemma fatalStart_idempotent (p : process) : fatalStart (fatalStart p) = fatalStart p.
Proof.
  unfold fatalStart. destruct (fatalStart_start p) eqn:Hs; simpl; [done|].
  by rewrite Hs.
Qed.

(** C9: [fatal] writes the prefix unless [fatalStart] has written it
    already, then the expanded message, and exits with status 1, whatever
    the two warning flags say; after the first [fatalStart] further calls of
    it write nothing. *)
Theorem fatal_exits (fmt : string) (ap : va_list) (p : process) :
  fatal fmt ap p =
    NExit 1
      (set_fatalStart_start false
         (set_stderr
            ((stderr p +:+ (if fatalStart_start p then "sip5: " else ""))
             +:+ vsprintf fmt ap) p))
  ∧ (∀ n, Nat.iter (S n) fatalStart p = fatalStart p)
  ∧ fatal fmt ap (fatalStart p) =
      NExit 1
        (set_fatalStart_start false
           (set_stderr
              ((stderr p +:+ (if fatalStart_start p then "sip5: " else ""))
               +:+ vsprintf fmt ap) p)).
Proof.
  assert (Hfatal : ∀ q, fatal fmt ap q =
    NExit 1 (set_fatalStart_start false
      (set_stderr ((stderr q +:+ (if fatalStart_start q then "sip5: " else ""))
                   +:+ vsprintf fmt ap) q))).
  { intros [v vs inc wn wf ws [] err b hp]; unfold fatal, fatalStart; simpl;
      rewrite ?append_empty_r; reflexivity. }
  repeat split.
  - apply Hfatal.
  - induction n as [|n IH]; [done|].
    change (Nat.iter (S (S n)) fatalStart p)
      with (fatalStart (Nat.iter (S n) fatalStart p)).
    rewrite IH. apply fatalStart_idempotent.
  - unfold fatal. rewrite fatalStart_idempotent. apply (Hfatal p).
Qed.

(** Fragments that do not complete the message, reported while a message
    is under way, are written one after the other and nothing else is. *)
Lemma warning_run_fragments (w : Warning) (frags : list (string * va_list))
    (rest : list (Warning * string * va_list)) (p : process) :
  Forall (λ f, completes f.1 = false) frags →
  suppressed w p = false →
  warning_start p = false →
  warning_run (report w frags ++ rest) p =
    warning_run rest (set_stderr (stderr p +:+ expansion frags) p).
Proof.
  intros Hnc. revert p.
  induction Hnc as [|[fmt ap] frags Hf _ IH]; intros p Hs Hst.
  - simpl. rewrite append_empty_r. by destruct p.
  - simpl in Hf. simpl. rewrite warning_unfold by done. rewrite Hf, Hst.
    rewrite IH.
    + f_equal. destruct p; simpl in *; subst.
      by rewrite append_empty_r, append_assoc.
    + by destruct w, p.
    + done.
Qed.

(** C4, amended: a call that is not discarded and whose format string has a
    line terminator completes the message: it exits with status 1 when
    warnings are fatal and otherwise sets [start] again, so that the next
    call that is not discarded writes a label first; and a message reported
    from a fresh start in fragments of which only the last has a line
    terminator in its format is written as one label followed by the
    expansions of the fragments. *)
Theorem warning_completes_on_format_newline
    (w : Warning) (fmt : string) (ap : va_list) (p : process) :
  suppressed w p = false →
  completes fmt = true →
  (let out :=
     (stderr p +:+ (if warning_start p then label w else "")) +:+ vsprintf fmt ap in
   warning w fmt ap p =
     (if warnings_are_fatal p
      then NExit 1 (set_warning_start false (set_stderr out p))
      else NRet tt (set_warning_start true (set_stderr out p)))
   ∧ ∀ w' fmt' ap',
       warnings_are_fatal p = false →
       suppressed w' p = false →
       stderr (final (warning_run [(w, fmt, ap); (w', fmt', ap')] p)) =
         (out +:+ label w') +:+ vsprintf fmt' ap')
  ∧ ∀ frags,
      Forall (λ f, completes f.1 = false) frags →
      warning_start p = true →
      let out := (stderr p +:+ label w) +:+ expansion (frags ++ [(fmt, ap)]) in
      warning_run (report w (frags ++ [(fmt, ap)])) p =
        if warnings_are_fatal p
        then NExit 1 (set_warning_start false (set_stderr out p))
        else NRet tt (set_warning_start true (set_stderr out p)).
Proof.
  intros Hs Hc.
  assert (Hone : ∀ q, suppressed w q = false →
    warning w fmt ap q =
      (if warnings_are_fatal q
       then NExit 1 (set_warning_start false (set_stderr
              ((stderr q +:+ (if warning_start q then label w else ""))
               +:+ vsprintf fmt ap) q))
       else NRet tt (set_warning_start true (set_stderr
              ((stderr q +:+ (if warning_start q then label w else ""))
               +:+ vsprintf fmt ap) q)))).
  { intros q Hq. rewrite warning_unfold by done. by rewrite Hc. }
  split; [split|].
  - by apply Hone.
  - intros w' fmt' ap' Hnf Hs'. simpl. rewrite Hone by done. rewrite Hnf.
    rewrite warning_unfold by (by destruct w', p).
    destruct p as [v vs inc wn wf ws fs err b hp]; simpl in *.
    destruct (completes fmt'), wf; reflexivity.
  - intros frags Hnc Hst out. subst out.
    destruct Hnc as [|[f a] frags Hf Hnc].
    + simpl. rewrite Hone by done. rewrite Hst, append_empty_r.
      by destruct (warnings_are_fatal p).
    + simpl in Hf. change (report w (((f, a) :: frags) ++ [(fmt, ap)]))
        with ((w, f, a) :: report w (frags ++ [(fmt, ap)])).
      unfold report at 1. rewrite map_app. fold (report w frags).
      cbn [warning_run]. rewrite warning_unfold by done. rewrite Hf, Hst.
      rewrite warning_run_fragments; [|done|by destruct w, p|done].
      cbn [map warning_run fst snd]. rewrite Hone by (by destruct w, p).
      destruct p as [v vs inc wn wf ws fs err b hp]; simpl in *.
      assert (Hexp : ∀ l, expansion (l ++ [(fmt, ap)]) =
                          expansion l +:+ vsprintf fmt ap).
      { induction l as [|[f' a'] l IHl]; simpl.
        - by rewrite append_empty_r.
        - by rewrite IHl, append_assoc. }
      rewrite Hexp, !append_empty_r, !append_assoc.
      destruct wf; reflexivity.
Qed.

End Reporter.

Section Convertors.

Context `{Environment}.

Lemma append_at_tail_app (head : stringList) (s : cstr) :
  append_at_tail head s = head ++ [s].
Proof. induction head as [|n head IH]; simpl; [done | by rewrite IH]. Qed.

Lemma after_nodes_S (n : nat) (p : process) :
  after_nodes (S n) p = after_nodes n (sipMalloc sizeof_stringList p).2.
Proof. unfold after_nodes. by rewrite Nat.iter_succ_r. Qed.

(** The loop over a run of [str] items that all encode: each is appended,
    in order, and the loop goes on with the items that follow. *)
Lemma stringList_items_encoded (us : list (list Z)) (bs : list string)
    (rest : list PyObject) (slp : stringList) (w : world) :
  Forall2 (λ u b, EncodeLocale u = inr b) us bs →
  stringList_items ((PyUnicode <$> us) ++ rest) slp w =
    stringList_items rest (slp ++ (Some <$> bs))
      (set_proc (after_nodes (length us) (proc w)) w).
Proof.
  intros Hall. revert slp w.
  induction Hall as [|u b us bs Hu _ IH]; intros slp w.
  - simpl. rewrite app_nil_r. by destruct w.
  - cbn [fmap list_fmap app stringList_items].
    unfold PyUnicode_EncodeLocale, encode_with. rewrite Hu.
    unfold appendString. cbn [sipMalloc]. rewrite IH.
    rewrite append_at_tail_app, <- app_assoc. cbn [length].
    rewrite after_nodes_S. reflexivity.
Qed.

(** Where the first item that does not encode is. *)
Lemma first_unencodable (us : list (list Z)) :
  Exists (λ u, ∃ e, EncodeLocale u = inl e) us →
  ∃ pre u post bs e,
    us = pre ++ u :: post
    ∧ Forall2 (λ u b, EncodeLocale u = inr b) pre bs
    ∧ EncodeLocale u = inl e.
Proof.
  induction us as [|u us IH]; intros Hex; [by inversion Hex|].
  destruct (EncodeLocale u) as [e|b] eqn:Hu.
  - exists [], u, us, [], e. split; [done|]. split; [constructor | exact Hu].
  - inversion Hex as [? ? [e He]|? ? Hex']; subst; [congruence|].
    destruct (IH Hex') as (pre & u' & post & bs & e & -> & Hall & Hu').
    exists (u :: pre), u', post, (b :: bs), e.
    split; [done|]. split; [by constructor | exact Hu'].
Qed.

(** C5: [None] is converted to the null pointer; a [str] that the
    filesystem codec encodes, the empty one among them, is converted to a
    pointer to the encoded bytes, which is not null and reads as the bytes
    before a first NUL; a [str] that the codec refuses makes the convertor
    return 0 with the codec's error set and the variable not stored into. *)
Theorem fs_convertor_cases (fsp : cstr) (w : world) :
  fs_convertor Py_None fsp w = (1, None, w)
  ∧ (∀ u, match EncodeFSDefault u with
          | inr bytes =>
              fs_convertor (PyUnicode u) fsp w = (1, Some (until_NUL bytes), w)
          | inl e =>
              fs_convertor (PyUnicode u) fsp w = (0, fsp, PyErr_Set (encode_exc e) w)
          end)
  ∧ (∀ u r w', fs_convertor (PyUnicode u) fsp w = (1, r, w') → r ≠ None).
Proof.
  split; [done|]. split.
  - intros u. unfold fs_convertor, PyUnicode_EncodeFSDefault, encode_with.
    by destruct (EncodeFSDefault u).
  - intros u r w'. unfold fs_convertor, PyUnicode_EncodeFSDefault, encode_with.
    destruct (EncodeFSDefault u); intros [= <- <-]; done.
Qed.

(** C2, amended: for a list of [str] items each of which the locale codec
    encodes, the convertor returns 1 and the list it stores has the encoded
    items, one node for each, in the order of the list; for [None] it
    returns 1 and stores the empty list. *)
Theorem stringList_convertor_encodable (us : list (list Z)) (bs : list string)
    (slp : stringList) (w : world) :
  Forall2 (λ u b, EncodeLocale u = inr b) us bs →
  stringList_convertor (PyList (PyUnicode <$> us)) slp w =
    (1, Some <$> bs, set_proc (after_nodes (length us) (proc w)) w)
  ∧ length (Some <$> bs) = length us
  ∧ (∀ i u, us !! i = Some u →
       ∃ b, (Some <$> bs) !! i = Some (Some b) ∧ EncodeLocale u = inr b)
  ∧ stringList_convertor Py_None slp w = (1, [], w).
Proof.
  intros Hall. repeat split.
  - unfold stringList_convertor.
    rewrite <- (app_nil_r (PyUnicode <$> us)).
    rewrite (stringList_items_encoded us bs) by done. reflexivity.
  - rewrite length_fmap. symmetry. by eapply Forall2_length.
  - intros i u Hi.
    destruct (Forall2_lookup_l _ _ _ _ _ Hall Hi) as (b & Hb & Hu).
    exists b. by rewrite list_lookup_fmap, Hb.
Qed.

(** C8: for a list of [str] items of which some item does not encode, the
    convertor returns 0 with the codec's error for the first such item set,
    and the list it leaves in the variable has the encoded items before
    that one and no other. *)
Theorem stringList_convertor_unencodable (us : list (list Z))
    (slp : stringList) (w : world) :
  Exists (λ u, ∃ e, EncodeLocale u = inl e) us →
  ∃ pre u post bs e,
    us = pre ++ u :: post
    ∧ Forall2 (λ u b, EncodeLocale u = inr b) pre bs
    ∧ EncodeLocale u = inl e
    ∧ stringList_convertor (PyList (PyUnicode <$> us)) slp w =
        (0, Some <$> bs,
         PyErr_Set (encode_exc e) (set_proc (after_nodes (length pre) (proc w)) w))
    ∧ (length bs < length us)%nat.
Proof.
  intros Hex.
  destruct (first_unencodable us Hex) as (pre & u & post & bs & e & -> & Hall & Hu).
  exists pre, u, post, bs, e. repeat split; [done..| |].
  - unfold stringList_convertor. rewrite fmap_app, fmap_cons.
    rewrite (stringList_items_encoded pre bs) by done.
    cbn [stringList_items]. unfold PyUnicode_EncodeLocale, encode_with.
    by rewrite Hu.
  - rewrite <- (Forall2_length _ _ _ Hall), length_app. simpl. lia.
Qed.

(** Where the first item is that is not a [str] that encodes, in a list
    with an item that is not a [str]. *)
Lemma first_refused (items : list PyObject) :
  Exists (λ item, ∀ u, item ≠ PyUnicode u) items →
  ∃ us bs item rest e,
    items = (PyUnicode <$> us) ++ item :: rest
    ∧ Forall2 (λ u b, EncodeLocale u = inr b) us bs
    ∧ PyUnicode_EncodeLocale item = inl e
    ∧ (((∀ u, item ≠ PyUnicode u) ∧ e = bad_argument)
       ∨ ∃ u ee, item = PyUnicode u ∧ EncodeLocale u = inl ee ∧ e = encode_exc ee).
Proof.
  induction items as [|item items IH]; intros Hex; [by inversion Hex|].
  destruct (PyUnicode_EncodeLocale item) as [e|el] eqn:Hitem.
  - exists [], [], item, items, e. split; [done|]. split; [constructor|].
    split; [done|]. revert Hitem. unfold PyUnicode_EncodeLocale, encode_with.
    destruct item; try (intros [= <-]; by left).
    destruct (EncodeLocale u) as [ee|?] eqn:Hu; intros [= <-].
    right. by exists u, ee.
  - assert (Hstr : ∃ u, item = PyUnicode u ∧ EncodeLocale u = inr el).
    { revert Hitem. unfold PyUnicode_EncodeLocale, encode_with.
      destruct item; try discriminate.
      destruct (EncodeLocale u) eqn:Hu; [discriminate|].
      intros [= <-]. by exists u. }
    destruct Hstr as (u & -> & Hu).
    inversion Hex as [? ? Hhd|? ? Htl]; subst; [by destruct (Hhd u)|].
    destruct (IH Htl) as (us & bs & it & rest & e & -> & Hall & Hit & Hkind).
    exists (u :: us), (el :: bs), it, rest, e.
    split; [done|]. split; [by constructor|]. done.
Qed.

(** C7, amended: for an object that is neither [None] nor a list the
    convertor returns 0 with [TypeError], "list of str expected", set and
    the empty list stored in the variable. For a list with an item that is
    not a [str] it returns 0 at the first item that is not a [str] that
    encodes: with the [TypeError] of a bad argument set when that item is
    not a [str], as it is when every item before the first that is not a
    [str] encodes, and with the error of the codec when it is a [str] that
    does not encode; the variable is left with the encoded items before
    that one. *)
Theorem stringList_convertor_type_error (slp : stringList) (w : world) :
  (∀ obj, obj ≠ Py_None → PyList_Check obj = false →
     stringList_convertor obj slp w =
       (0, [], PyErr_Set (PyExc_TypeError "list of str expected") w))
  ∧ (∀ us bs item rest,
       Forall2 (λ u b, EncodeLocale u = inr b) us bs →
       (∀ u, item ≠ PyUnicode u) →
       stringList_convertor (PyList ((PyUnicode <$> us) ++ item :: rest)) slp w =
         (0, Some <$> bs,
          PyErr_Set bad_argument (set_proc (after_nodes (length us) (proc w)) w)))
  ∧ (∀ items,
       Exists (λ item, ∀ u, item ≠ PyUnicode u) items →
       ∃ us bs item rest e,
         items = (PyUnicode <$> us) ++ item :: rest
         ∧ Forall2 (λ u b, EncodeLocale u = inr b) us bs
         ∧ (((∀ u, item ≠ PyUnicode u) ∧ e = bad_argument)
            ∨ ∃ u ee, item = PyUnicode u ∧ EncodeLocale u = inl ee
                      ∧ e = encode_exc ee)
         ∧ stringList_convertor (PyList items) slp w =
             (0, Some <$> bs,
              PyErr_Set e (set_proc (after_nodes (length us) (proc w)) w))
         ∧ (length bs < length items)%nat).
Proof.
  split; [|split].
  - intros obj Hnone Hlist. by destruct obj.
  - intros us bs item rest Hall Hitem. unfold stringList_convertor.
    rewrite (stringList_items_encoded us bs) by done.
    cbn [stringList_items]. unfold PyUnicode_EncodeLocale, encode_with.
    destruct item; try reflexivity. by destruct (Hitem u).
  - intros items Hex.
    destruct (first_refused items Hex)
      as (us & bs & item & rest & e & -> & Hall & Hitem & Hkind).
    exists us, bs, item, rest, e. do 3 (split; [done|]). split.
    + unfold stringList_convertor.
      rewrite (stringList_items_encoded us bs) by done.
      cbn [stringList_items]. by rewrite Hitem.
    + rewrite length_app, length_fmap, <- (Forall2_length _ _ _ Hall). simpl. lia.
Qed.

End Convertors.

Section Wrappers.

Context `{Environment}.

(** *** What the convertors do to the interpreter *)

Lemma encode_exc_not_handle_error (e : EncodeError) : ¬ handle_error (encode_exc e).
Proof. intros [Hh|[Hh|Hh]]; destruct e; discriminate. Qed.

Lemma bad_argument_not_handle_error : ¬ handle_error bad_argument.
Proof. intros [Hh|[Hh|Hh]]; discriminate. Qed.


Lemma encode_with_error codec obj e :
  encode_with codec obj = inl e → ¬ handle_error e.
Proof.
  unfold encode_with. destruct obj; intros Henc; simplify_eq;
    try apply bad_argument_not_handle_error.
  destruct (codec u); simplify_eq. apply encode_exc_not_handle_error.
Qed.

Lemma fs_convertor_world obj fsp w st v w' :
  fs_convertor obj fsp w = (st, v, w') →
  if st =? 0 then ∃ e, w' = PyErr_Set e w ∧ ¬ handle_error e else w' = w.
Proof.
  unfold fs_convertor, PyUnicode_EncodeFSDefault.
  destruct obj; [by intros [= <- <- <-] |..];
    (destruct (encode_with _ _) as [exc|bytes] eqn:He; intros [= <- <- <-]; simpl;
     [eexists; split; [done | by eapply encode_with_error] | done]).
Qed.

Lemma sipSpec_convertor_world obj ptp w st v w' :
  sipSpec_convertor obj ptp w = (st, v, w') →
  if st =? 0 then ∃ e, w' = PyErr_Set e w ∧ handle_error e
  else w' = w ∧ v ≠ NULL.
Proof.
  unfold sipSpec_convertor, PyCapsule_GetPointer, handle_error.
  destruct obj; simpl; try (intros [= <- <- <-]; simpl; by eauto).
  destruct (capsules w !! ob) as [c|]; [|intros [= <- <- <-]; simpl; by eauto].
  destruct (pointer c =? NULL)%N eqn:Hp; [intros [= <- <- <-]; simpl; by eauto|].
  destruct (name c); simpl.
  - intros [= <- <- <-]; simpl; by eauto.
  - rewrite Hp. intros [= <- <- <-]. simpl. split; [done|]. by apply N.eqb_neq.
Qed.

Lemma set_brk_same (w : world) : set_proc (set_brk (brk (proc w)) (proc w)) w = w.
Proof. by destruct w as [[] ? ?]. Qed.

Lemma set_brk_twice (b b' : positive) (w : world) :
  set_proc (set_brk b (proc (set_proc (set_brk b' (proc w)) w)))
    (set_proc (set_brk b' (proc w)) w) =
  set_proc (set_brk b (proc w)) w.
Proof. by destruct w as [[] ? ?]. Qed.

Lemma stringList_items_world items slp w st v w' :
  stringList_items items slp w = (st, v, w') →
  ∃ b, if st =? 0
       then ∃ e, w' = PyErr_Set e (set_proc (set_brk b (proc w)) w)
                 ∧ ¬ handle_error e
       else w' = set_proc (set_brk b (proc w)) w.
Proof.
  revert slp w. induction items as [|item items IH]; intros slp w.
  - intros [= <- <- <-]. exists (brk (proc w)). by rewrite set_brk_same.
  - cbn [stringList_items]. unfold PyUnicode_EncodeLocale.
    destruct (encode_with _ _) as [e|bytes] eqn:He.
    + intros [= <- <- <-]. exists (brk (proc w)). simpl. exists e.
      split; [by rewrite set_brk_same | by eapply encode_with_error].
    + unfold appendString, sipMalloc. intros Hrun.
      destruct (IH _ _ Hrun) as [b Hb]. exists b.
      rewrite set_brk_twice in Hb. done.
Qed.

Lemma stringList_convertor_world obj slp w st v w' :
  stringList_convertor obj slp w = (st, v, w') →
  ∃ b, if st =? 0
       then ∃ e, w' = PyErr_Set e (set_proc (set_brk b (proc w)) w)
                 ∧ ¬ handle_error e
       else w' = set_proc (set_brk b (proc w)) w.
Proof.
  unfold stringList_convertor.
  destruct obj; try apply stringList_items_world;
    intros [= <- <- <-]; exists (brk (proc w)); simpl;
    rewrite set_brk_same; try done;
    (eexists; split; [done|]; intros [Hh|[Hh|Hh]]; discriminate).
Qed.

(** *** Rules for [run] *)

Lemma run_bind {A B} (m : M A) (k : A → M B) (w : world) Q :
  run m w (λ tr o,
    match o with
    | Ret a w' => run (k a) w' (λ tr' o', Q (tr ++ tr') o')
    | Raise w' => Q tr (Raise w')
    | Exit status w' => Q tr (Exit status w')
    end) →
  run (m ≫= k) w Q.
Proof.
  unfold run, mbind, M_bind, bind.
  destruct (m w) as [tr [a w'|w'|st w']]; simpl; [|done..].
  by destruct (k a w').
Qed.

Lemma run_ret {A} (a : A) (w : world) Q : Q [] (Ret a w) → run (mret a) w Q.
Proof. done. Qed.

Lemma run_raise {A} (e : PyExc) (w : world) Q :
  Q [] (Raise (PyErr_Set e w)) → run (raise (A:=A) e) w Q.
Proof. done. Qed.

Lemma run_update (f : process → process) (w : world) Q :
  Q [] (Ret tt (set_proc (f (proc w)) w)) → run (update f) w Q.
Proof. done. Qed.

Lemma run_arg_p (obj : PyObject) (w : world) Q :
  Q [] (Ret (PyObject_IsTrue obj) w) → run (arg_p obj) w Q.
Proof. done. Qed.

Lemma run_arg_i (obj : PyObject) (w : world) Q :
  (∀ e, ¬ handle_error e → Q [] (Raise (PyErr_Set e w))) →
  (∀ n, Q [] (Ret n w)) →
  run (arg_i obj) w Q.
Proof.
  intros Hr Hv. unfold arg_i.
  destruct (as_long obj) as [n|]; [|apply run_raise, Hr; intros [?|[?|?]]; done].
  destruct (n <? INT_MIN); [apply run_raise, Hr; intros [?|[?|?]]; done|].
  destruct (INT_MAX <? n); [apply run_raise, Hr; intros [?|[?|?]]; done|].
  apply Hv.
Qed.

Lemma run_arg_I (obj : PyObject) (w : world) Q :
  (∀ e, ¬ handle_error e → Q [] (Raise (PyErr_Set e w))) →
  (∀ n, Q [] (Ret n w)) →
  run (arg_I obj) w Q.
Proof.
  intros Hr Hv. unfold arg_I.
  destruct (as_long obj) as [n|]; [apply Hv|].
  apply run_raise, Hr; intros [?|[?|?]]; done.
Qed.

Lemma run_arg_s (obj : PyObject) (w : world) Q :
  (∀ e, ¬ handle_error e → Q [] (Raise (PyErr_Set e w))) →
  (∀ s, Q [] (Ret s w)) →
  run (arg_s obj) w Q.
Proof.
  intros Hr Hv. unfold arg_s.
  destruct obj; try (apply run_raise, Hr; intros [?|[?|?]]; done).
  destruct (AsUTF8 u) as [e|s].
  - apply run_raise, Hr, encode_exc_not_handle_error.
  - destruct (existsb _ _); [|apply Hv].
    apply run_raise, Hr; intros [?|[?|?]]; done.
Qed.

Lemma run_arg_fs (obj : PyObject) (fsp : cstr) (w : world) Q :
  (∀ e, ¬ handle_error e → Q [] (Raise (PyErr_Set e w))) →
  (∀ v, Q [] (Ret v w)) →
  run (arg_conv fs_convertor obj fsp) w Q.
Proof.
  intros Hr Hv. unfold run, arg_conv.
  destruct (fs_convertor obj fsp w) as [[st v] w'] eqn:Hc.
  apply fs_convertor_world in Hc.
  destruct (st =? 0); simpl; [|by subst].
  destruct Hc as (e & -> & He). by apply Hr.
Qed.

Lemma run_arg_stringList (obj : PyObject) (slp : stringList) (w : world) Q :
  (∀ b e, ¬ handle_error e →
     Q [] (Raise (PyErr_Set e (set_proc (set_brk b (proc w)) w)))) →
  (∀ b v, Q [] (Ret v (set_proc (set_brk b (proc w)) w))) →
  run (arg_conv stringList_convertor obj slp) w Q.
Proof.
  intros Hr Hv. unfold run, arg_conv.
  destruct (stringList_convertor obj slp w) as [[st v] w'] eqn:Hc.
  apply stringList_convertor_world in Hc as [b Hc].
  destruct (st =? 0); simpl; [|by subst].
  destruct Hc as (e & -> & He). by apply Hr.
Qed.

Lemma run_arg_sipSpec (obj : PyObject) (ptp : ptr) (w : world) Q :
  (∀ e v, handle_error e →
     sipSpec_convertor obj ptp w = (0, v, PyErr_Set e w) →
     Q [] (Raise (PyErr_Set e w))) →
  (∀ pt, pt ≠ NULL → sipSpec_convertor obj ptp w = (1, pt, w) → Q [] (Ret pt w)) →
  run (arg_conv sipSpec_convertor obj ptp) w Q.
Proof.
  intros Hr Hv. unfold run, arg_conv.
  destruct (sipSpec_convertor obj ptp w) as [[st v] w'] eqn:Hc.
  pose proof (sipSpec_convertor_world _ _ _ _ _ _ Hc) as Hw.
  assert (Hst : st = 0 ∨ st = 1).
  { revert Hc. unfold sipSpec_convertor.
    destruct (negb _); [intros [= <- _ _]; by left|].
    destruct (PyCapsule_GetPointer _ _ _) as [q wq].
    destruct (q =? NULL)%N; intros [= <- _ _]; auto. }
  destruct Hst as [-> | ->]; simpl in *.
  - destruct Hw as (e & -> & He). by eapply Hr.
  - destruct Hw as [-> Hv']. by apply Hv.
Qed.

Lemma run_invoke (c : native_call) (w : world) Q :
  (∀ p, Q [c] (Ret tt (set_proc p w))) →
  (∀ status p, Q [c] (Exit status (set_proc p w))) →
  run (invoke c) w Q.
Proof.
  intros Hr He. unfold run, invoke.
  destruct (native c (proc w)) as [[] p|st p]; simpl; [apply Hr | apply He].
Qed.

Lemma run_module_of (pt : ptr) (w : world) Q :
  (∀ module, Q [] (Ret module w)) → run (module_of pt) w Q.
Proof. intros Hq. apply Hq. Qed.

Lemma run_malloc_sipSpec (w : world) Q :
  (∀ pt b, pt ≠ NULL → Q [] (Ret pt (set_proc (set_brk b (proc w)) w))) →
  run malloc_sipSpec w Q.
Proof. intros Hq. unfold run, malloc_sipSpec, sipMalloc. simpl. by apply Hq. Qed.

Lemma run_return_capsule (pt : ptr) (w : world) Q :
  pt ≠ NULL →
  (∀ ob, capsules w !! ob = None →
     Q [] (Ret (PyCapsule ob)
             (set_capsules (<[ob := mkCapsule pt None]> (capsules w)) w))) →
  run (return_capsule pt) w Q.
Proof.
  intros Hpt Hq. unfold run, return_capsule, PyCapsule_New.
  apply N.eqb_neq in Hpt. rewrite Hpt. simpl. apply Hq.
  apply not_elem_of_dom, is_fresh.
Qed.

Lemma run_arg_global_stringList (obj : PyObject) (w : world) Q :
  (∀ b l e, ¬ handle_error e →
     Q [] (Raise (PyErr_Set e
            (set_proc (set_includeDirList l (set_brk b (proc w))) w)))) →
  (∀ b l, Q [] (Ret tt (set_proc (set_includeDirList l (set_brk b (proc w))) w))) →
  run (arg_conv_global stringList_convertor obj includeDirList set_includeDirList)
    w Q.
Proof.
  intros Hr Hv. unfold run, arg_conv_global.
  destruct (stringList_convertor obj _ w) as [[st v] w'] eqn:Hc.
  apply stringList_convertor_world in Hc as [b Hc].
  destruct (st =? 0); simpl.
  - destruct Hc as (e & -> & He). by apply Hr.
  - subst. apply Hv.
Qed.

(** One step of a wrapper. *)
Ltac run_step :=
  lazy beta iota;
  lazymatch goal with
  | |- run (mbind _ _) _ _ => apply run_bind
  | |- run (mret _) _ _ => apply run_ret
  | |- run (raise _) _ _ => apply run_raise
  | |- run (update _) _ _ => apply run_update
  | |- run (arg_p _) _ _ => apply run_arg_p
  | |- run (arg_i _) _ _ => apply run_arg_i; [intros ? ? | intros ?]
  | |- run (arg_I _) _ _ => apply run_arg_I; [intros ? ? | intros ?]
  | |- run (arg_s _) _ _ => apply run_arg_s; [intros ? ? | intros ?]
  | |- run (arg_conv fs_convertor _ _) _ _ =>
      apply run_arg_fs; [intros ? ? | intros ?]
  | |- run (arg_conv stringList_convertor _ _) _ _ =>
      apply run_arg_stringList; [intros ? ? ? | intros ? ?]
  | |- run (arg_conv_global stringList_convertor _ _ _) _ _ =>
      apply run_arg_global_stringList; [intros ? ? ? ? | intros ? ?]
  | |- run (arg_conv sipSpec_convertor _ _) _ _ =>
      apply run_arg_sipSpec; [intros ? ? ? ? | intros ? ? ?]
  | |- run (invoke _) _ _ => apply run_invoke; [intros ? | intros ? ?]
  | |- run (module_of _) _ _ => apply run_module_of; intros ?
  | |- run malloc_sipSpec _ _ => apply run_malloc_sipSpec; intros ? ? ?
  | |- run (return_capsule _) _ _ =>
      apply run_return_capsule; [assumption | intros ? ?]
  end.

(** The argument tuple, size by size, up to the size the wrapper takes. *)
Ltac by_arity :=
  unfold py_set_globals, py_parse, py_transform, py_generateCode,
    py_generateExtracts, py_generateAPI, py_generateXML, py_generateTypeHints;
  repeat (lazy beta iota;
          match goal with
          | |- run (match ?l with [] => _ | _ :: _ => _ end) _ _ =>
              destruct l as [|? ?]
          end);
  try apply run_raise.

Lemma run_elim {A} (m : M A) (w : world) Q tr o :
  run m w Q → m w = (tr, o) → Q tr o.
Proof. unfold run. intros HQ Heq. by rewrite Heq in HQ. Qed.

(** *** The error of a conversion *)

(** Whether the loop of [stringList_convertor] fails, and with what error,
    depends on the items alone. *)
Lemma stringList_items_raised items slp w slp' w' :
  (stringList_items items slp w).1.1 = (stringList_items items slp' w').1.1
  ∧ ((stringList_items items slp w).1.1 = 0 →
     PyErr (stringList_items items slp w).2 =
     PyErr (stringList_items items slp' w').2).
Proof.
  revert slp w slp' w'. induction items as [|item items IH]; intros slp w slp' w'.
  - simpl. split; [done|]. discriminate.
  - cbn [stringList_items]. destruct (PyUnicode_EncodeLocale item) as [e|el].
    + by simpl.
    + unfold appendString, sipMalloc. apply IH.
Qed.

(** A conversion fails or not, and with what error, the same in two states
    of the interpreter that have the same capsules. *)
Lemma conversion_error_frame (u : format_unit) (obj : PyObject) (w0 w : world) :
  capsules w0 = capsules w →
  conversion_error u obj w0 = conversion_error u obj w.
Proof.
  intros Hc. destruct u; unfold conversion_error, raised.
  - unfold arg_I. by destruct (as_long obj).
  - unfold arg_s. destruct obj; try done.
    destruct (AsUTF8 u) as [e|s']; [done|]. by destruct (existsb _ _).
  - done.
  - unfold arg_i. destruct (as_long obj) as [n|]; [|done].
    destruct (n <? INT_MIN); [done|]. by destruct (INT_MAX <? n).
  - unfold arg_conv, fs_convertor, PyUnicode_EncodeFSDefault, encode_with.
    destruct obj; try done. by destruct (EncodeFSDefault u).
  - unfold arg_conv, sipSpec_convertor, PyCapsule_GetPointer.
    destruct obj; try done. simpl. rewrite Hc.
    destruct (capsules w !! ob) as [c|]; [|done].
    destruct (pointer c =? NULL)%N eqn:Hp; [done|].
    destruct (name c); simpl; [done | by rewrite Hp].
  - unfold arg_conv, stringList_convertor. destruct obj; try done.
    destruct (stringList_items_raised items [] w0 [] w) as [Hst Herr].
    destruct (stringList_items items [] w0) as [[st v] w1].
    destruct (stringList_items items [] w) as [[st' v'] w1'].
    simpl in *. subst st'. destruct (st =? 0) eqn:Hz; simpl; [|done].
    apply Herr. by apply Z.eqb_eq.
Qed.

Lemma conversion_error_p (obj : PyObject) (w : world) :
  conversion_error unit_p obj w = None.
Proof. done. Qed.

(** A conversion run inside a wrapper, with its error known for every
    state that has the same capsules. *)
Lemma run_with_error {A} (u : format_unit) (obj : PyObject) (m : M A)
    (w : world) Q :
  conversion_error u obj w = raised (m w) →
  run m w (λ tr o,
    (∀ w0, capsules w0 = capsules w → conversion_error u obj w0 = raised (tr, o)) →
    Q tr o) →
  run m w Q.
Proof.
  unfold run. intros Heq HQ. apply HQ. intros w0 Hc.
  by rewrite (conversion_error_frame u obj w0 w Hc).
Qed.

Lemma raised_arg_conv_global (obj : PyObject) (w : world) :
  conversion_error unit_stringList obj w =
  raised (arg_conv_global stringList_convertor obj includeDirList
            set_includeDirList w).
Proof.
  unfold conversion_error, raised, arg_conv, arg_conv_global.
  change (stringList_convertor obj (includeDirList (proc w)) w)
    with (stringList_convertor obj [] w).
  destruct (stringList_convertor obj [] w) as [[st v] w'].
  by destruct (st =? 0).
Qed.



(** *** The calls a wrapper makes *)


Lemma methods_calls (m : method) (args : list PyObject) (w : world) :
  run (methods m args) w (λ tr o,
    match o with
    | Raise w' =>
        tr = [] ∧ is_Some (PyErr w') ∧ stderr (proc w') = stderr (proc w)
        ∧ heap (proc w') = heap (proc w)
    | Ret _ _ | Exit _ _ => if wraps_native m then ∃ c, tr = [c] else tr = []
    end).
Proof.
  destruct m; cbn [methods wraps_native]; by_arity; repeat run_step;
    lazy beta iota; simpl; eauto.
Qed.



(** *** Capsules *)



(** Resolving a capsule that wraps an address gives the address and leaves
    the interpreter as it was. *)
Lemma sipSpec_convertor_wraps (ob : nat) (pt ptp : ptr) (w : world) :
  wraps ob pt w → sipSpec_convertor (PyCapsule ob) ptp w = (1, pt, w).
Proof.
  intros [Hpt Hw]. unfold sipSpec_convertor, PyCapsule_GetPointer. simpl.
  rewrite Hw. apply N.eqb_neq in Hpt. unfold NULL in *. simpl.
  by rewrite !Hpt.
Qed.






End Wrappers.

(** ** More on the reporters *)

Section ReporterFrame.

Context `{Environment}.

(** What a call may change: [stderr], to which it appends, and the [start]
    flag of [warning]. *)
Lemma warning_changes (w : Warning) (fmt : string) (ap : va_list) (p : process) :
  ∃ b out,
    final (warning w fmt ap p) = set_warning_start b (set_stderr (stderr p +:+ out) p).
Proof.
  destruct (suppressed w p) eqn:Hs.
  - destruct w; [|done]. simpl in Hs. apply negb_true_iff in Hs.
    rewrite warning_discards by done.
    exists (warning_start p), "". rewrite append_empty_r. by destruct p.
  - rewrite warning_unfold by done.
    destruct (completes fmt), (warnings_are_fatal p); simpl;
      destruct p as [v vs inc wn wf ws fs err b hp]; simpl;
      eexists _, _; rewrite append_assoc; reflexivity.
Qed.

Lemma suppressed_after (w w' : Warning) (fmt : string) (ap : va_list) (p : process) :
  suppressed w' (final (warning w fmt ap p)) = suppressed w' p.
Proof.
  destruct (warning_keeps_flags w fmt ap p) as [Hw _].
  destruct w'; simpl; [by rewrite Hw | done].
Qed.

Lemma warning_run_frame (calls : list (Warning * string * va_list))
    (p : process) :
  ∃ b out,
    final (warning_run calls p) =
      set_warning_start b (set_stderr (stderr p +:+ out) p).
Proof.
  revert p. induction calls as [|[[w fmt] ap] calls IH]; intros p.
  - exists (warning_start p), "". rewrite append_empty_r. by destruct p.
  - simpl. destruct (warning_changes w fmt ap p) as (b1 & out1 & H1).
    destruct (warning w fmt ap p) as [[] p1|st p1]; simpl in H1; subst p1.
    + destruct (IH (set_warning_start b1 (set_stderr (stderr p +:+ out1) p)))
        as (b2 & out2 & ->).
      exists b2, (out1 +:+ out2). destruct p; simpl. by rewrite append_assoc.
    + by exists b1, out1.
Qed.

(** X5: A run of calls to [warning] leaves the globals, the policy flags, the
    [start] flag of [fatalStart], the allocation cursor and the memory of
    the code generator as they were, and only appends to [stderr]. *)
Theorem warning_run_changes (calls : list (Warning * string * va_list))
    (p : process) :
  sipVersion (final (warning_run calls p)) = sipVersion p
  ∧ sipVersionStr (final (warning_run calls p)) = sipVersionStr p
  ∧ includeDirList (final (warning_run calls p)) = includeDirList p
  ∧ warnings (final (warning_run calls p)) = warnings p
  ∧ warnings_are_fatal (final (warning_run calls p)) = warnings_are_fatal p
  ∧ fatalStart_start (final (warning_run calls p)) = fatalStart_start p
  ∧ brk (final (warning_run calls p)) = brk p
  ∧ heap (final (warning_run calls p)) = heap p
  ∧ ∃ out, stderr (final (warning_run calls p)) = stderr p +:+ out.
Proof.
  destruct (warning_run_frame calls p) as (b & out & ->).
  repeat split; by exists out.
Qed.

(** X6: A run of calls exits, with status 1, exactly when warnings are fatal
    and one of its calls is not discarded and has a line terminator in its
    format. *)
Theorem warning_run_exit_status (calls : list (Warning * string * va_list))
    (p : process) :
  exit_status (warning_run calls p) =
    if warnings_are_fatal p && existsb (ends_message p) calls
    then Some 1 else None.
Proof.
  revert p. induction calls as [|[[w fmt] ap] calls IH]; intros p.
  - simpl. by rewrite andb_false_r.
  - cbn [warning_run existsb]. unfold ends_message at 1. cbn [fst snd].
    pose proof (warning_keeps_flags w fmt ap p) as [_ Hf].
    assert (Hends : ∀ c, ends_message (final (warning w fmt ap p)) c =
                         ends_message p c).
    { intros c. unfold ends_message. by rewrite suppressed_after. }
    destruct (suppressed w p) eqn:Hs.
    + destruct w; [|done]. simpl in Hs. apply negb_true_iff in Hs.
      rewrite warning_discards by done. simpl. apply IH.
    + rewrite warning_unfold in * by done.
      destruct (completes fmt), (warnings_are_fatal p) eqn:Hfatal;
        simpl in *; rewrite ?IH; simpl; rewrite ?Hfatal; simpl;
        try done; by rewrite (existsb_ext _ _ Hends).
Qed.

(** X7: The [start] flag of [warning] belongs to no category: a fragment
    written after an unfinished fragment of the other category gets no label
    of its own. *)
Theorem warning_label_shared (w1 w2 : Warning) (f1 f2 : string)
    (a1 a2 : va_list) (p : process) :
  suppressed w1 p = false →
  suppressed w2 p = false →
  completes f1 = false →
  stderr (final (warning_run [(w1, f1, a1); (w2, f2, a2)] p)) =
    ((stderr p +:+ (if warning_start p then label w1 else ""))
     +:+ vsprintf f1 a1) +:+ vsprintf f2 a2.
Proof.
  intros Hs1 Hs2 Hc. simpl. rewrite warning_unfold by done. rewrite Hc.
  rewrite warning_unfold by (by destruct w2, p).
  destruct p as [v vs inc wn wf ws fs err b hp]; simpl.
  rewrite append_empty_r. destruct (completes f2), wf; reflexivity.
Qed.

(** X8: The [start] flag of [fatalStart] is another variable than the one of
    [warning]: [fatal] called after a run of warnings, finished or not,
    writes its prefix as if no warning had been reported, and exits with
    status 1. *)
Theorem fatal_after_warnings (calls : list (Warning * string * va_list))
    (fmt : string) (ap : va_list) (p p' : process) :
  warning_run calls p = NRet tt p' →
  exit_status (fatal fmt ap p') = Some 1
  ∧ stderr (final (fatal fmt ap p')) =
      (stderr p' +:+ (if fatalStart_start p then "sip5: " else ""))
      +:+ vsprintf fmt ap.
Proof.
  intros Hrun. split; [done|].
  destruct (warning_run_frame calls p) as (b & out & Hp).
  rewrite Hrun in Hp. simpl in Hp. subst p'.
  unfold fatal, fatalStart.
  destruct p as [v vs inc wn wf ws [] err br hp]; simpl;
    rewrite ?append_empty_r; reflexivity.
Qed.

End ReporterFrame.

(** ** More on the convertors *)

Section ConvertorCases.

Context `{Environment}.

(** X1: [appendString] puts the string in a new last node: the list is one
    longer, the nodes it had are where they were, and of the process only
    the allocation cursor has moved, by one node. *)
Theorem appendString_appends (head : stringList) (s : cstr) (p : process) :
  appendString head s p =
    (head ++ [s], set_brk (brk p + sizeof_stringList)%positive p)
  ∧ length (appendString head s p).1 = S (length head)
  ∧ (∀ i x, head !! i = Some x → (appendString head s p).1 !! i = Some x)
  ∧ (appendString head s p).1 !! length head = Some s.
Proof.
  assert (Heq : appendString head s p =
                (head ++ [s], set_brk (brk p + sizeof_stringList)%positive p)).
  { unfold appendString, sipMalloc. by rewrite append_at_tail_app. }
  rewrite Heq. simpl. split; [done|]. split; [|split].
  - rewrite length_app. simpl. lia.
  - intros i x Hi. by apply lookup_app_l_Some.
  - by apply list_lookup_middle.
Qed.

Lemma stringList_items_length items slp w st v w' :
  stringList_items items slp w = (st, v, w') →
  Forall (λ s, s ≠ None) slp →
  Forall (λ s, s ≠ None) v
  ∧ ((st = 1 ∧ length v = (length slp + length items)%nat)
     ∨ (st = 0 ∧ (length slp ≤ length v < length slp + length items)%nat)).
Proof.
  revert slp w. induction items as [|item items IH]; intros slp w.
  - intros [= <- <- <-] Hslp. split; [done|]. left. simpl. split; [done | lia].
  - cbn [stringList_items]. destruct (PyUnicode_EncodeLocale item) as [e|el].
    + intros [= <- <- <-] Hslp. split; [done|]. right. simpl. split; [done | lia].
    + unfold appendString, sipMalloc. rewrite append_at_tail_app.
      intros Hrun Hslp. apply IH in Hrun as [Hv Hlen].
      * split; [done|]. rewrite length_app in Hlen. simpl in *.
        destruct Hlen as [[-> Hl]|[-> Hl]]; [left | right]; (split; [done | lia]).
      * apply Forall_app. split; [done|]. by repeat constructor.
Qed.

(** X2: Whatever the list holds, the convertor returns 1 or 0; it returns 1
    exactly when the list it stored has as many nodes as the Python list has
    items, it never stores more nodes than that, and no node it stores has a
    null string. *)
Theorem stringList_convertor_length (items : list PyObject) (slp : stringList)
    (w : world) (st : Z) (v : stringList) (w' : world) :
  stringList_convertor (PyList items) slp w = (st, v, w') →
  (st = 1 ∨ st = 0)
  ∧ (st = 1 ↔ length v = length items)
  ∧ (length v ≤ length items)%nat
  ∧ Forall (λ s, s ≠ None) v.
Proof.
  unfold stringList_convertor. intros Hrun.
  apply stringList_items_length in Hrun as [Hv Hlen]; [|done].
  simpl in Hlen. destruct Hlen as [[-> Hl]|[-> Hl]].
  - split; [by left|]. split; [done|]. split; [lia | done].
  - split; [by right|]. split; [split; [done | lia]|]. split; [lia | done].
Qed.

(** X3: An object that is neither [None] nor a [str] makes [fs_convertor]
    return 0 with the [TypeError] of a bad argument, and the variable keeps
    what it held. *)
Theorem fs_convertor_other (obj : PyObject) (fsp : cstr) (w : world) :
  obj ≠ Py_None →
  (∀ u, obj ≠ PyUnicode u) →
  fs_convertor obj fsp w = (0, fsp, PyErr_Set bad_argument w).
Proof.
  intros Hnone Hstr. destruct obj; try done. by destruct (Hstr u).
Qed.

(** X4: [sipSpec_convertor] returns 1 for exactly the capsules of the store
    that have a pointer that is not null and no name; what it stores is that
    pointer, and it leaves the interpreter as it was. In every other case it
    returns 0, with an error set. *)
Theorem sipSpec_convertor_accepts (obj : PyObject) (ptp : ptr) (w : world) :
  (∀ pt w',
     sipSpec_convertor obj ptp w = (1, pt, w') ↔
     w' = w ∧ ∃ ob, obj = PyCapsule ob ∧ wraps ob pt w)
  ∧ ((∃ pt w', sipSpec_convertor obj ptp w = (1, pt, w'))
     ∨ ∃ v e, sipSpec_convertor obj ptp w = (0, v, PyErr_Set e w)).
Proof.
  split.
  - intros pt w'. split.
    + intros Hc. pose proof (sipSpec_convertor_world _ _ _ _ _ _ Hc) as Hw.
      simpl in Hw. destruct Hw as [-> Hpt]. split; [done|].
      revert Hc. unfold sipSpec_convertor, PyCapsule_GetPointer.
      destruct obj; simpl; try discriminate.
      exists ob. split; [done|]. split; [done|].
      destruct (capsules w !! ob) as [[q nm]|]; [|discriminate]. simpl in Hc.
      destruct (q =? NULL)%N eqn:Hq; [discriminate|].
      destruct nm; simpl in Hc; [discriminate|].
      rewrite Hq in Hc. by simplify_eq.
    + intros [-> (ob & -> & Hw)]. by apply sipSpec_convertor_wraps.
  - destruct (sipSpec_convertor obj ptp w) as [[st v] w'] eqn:Hc.
    pose proof (sipSpec_convertor_world _ _ _ _ _ _ Hc) as Hw.
    assert (Hst : st = 0 ∨ st = 1).
    { revert Hc. unfold sipSpec_convertor.
      destruct (negb _); [intros [= <- _ _]; by left|].
      destruct (PyCapsule_GetPointer _ _ _) as [q wq].
      destruct (q =? NULL)%N; intros [= <- _ _]; auto. }
    destruct Hst as [-> | ->]; simpl in Hw.
    + destruct Hw as (e & -> & _). right. by exists v, e.
    + left. by exists v, w'.
Qed.

End ConvertorCases.

(** ** More on the wrappers *)

Section WrapperRules.

Context `{Environment}.

Lemma fs_convertor_converted obj fsp w v w' :
  fs_convertor obj fsp w = (1, v, w') → fs_converted obj v.
Proof.
  unfold fs_convertor, PyUnicode_EncodeFSDefault, encode_with, fs_converted.
  destruct obj; try discriminate; [intros [= <- _]; by left|].
  destruct (EncodeFSDefault u) as [e|bytes] eqn:Hu; [discriminate|].
  intros [= <- _]. right. by exists u, bytes.
Qed.

Lemma run_arg_fs_converted (obj : PyObject) (fsp : cstr) (w : world) Q :
  (∀ e, ¬ handle_error e → Q [] (Raise (PyErr_Set e w))) →
  (∀ v, fs_converted obj v → Q [] (Ret v w)) →
  run (arg_conv fs_convertor obj fsp) w Q.
Proof.
  intros Hr Hv. unfold run, arg_conv.
  destruct (fs_convertor obj fsp w) as [[st v] w'] eqn:Hc.
  pose proof (fs_convertor_world _ _ _ _ _ _ Hc) as Hw.
  assert (Hst : st = 0 ∨ st = 1).
  { revert Hc. unfold fs_convertor. destruct obj; try (intros [= <- _ _]; auto);
      destruct (PyUnicode_EncodeFSDefault _); intros [= <- _ _]; auto. }
  destruct Hst as [-> | ->]; simpl in *.
  - destruct Hw as (e & -> & He). by apply Hr.
  - subst w'. apply Hv. by eapply fs_convertor_converted.
Qed.

Lemma run_invoke_native (c : native_call) (w : world) Q :
  (∀ p, native c (proc w) = NRet tt p → Q [c] (Ret tt (set_proc p w))) →
  (∀ status p, native c (proc w) = NExit status p →
     Q [c] (Exit status (set_proc p w))) →
  run (invoke c) w Q.
Proof.
  intros Hr He. unfold run, invoke.
  destruct (native c (proc w)) as [[] p|st p] eqn:Hn; simpl; [by apply Hr | by apply He].
Qed.

Lemma run_module_field (pt : ptr) (w : world) Q :
  Q [] (Ret (module_field (proc w) pt) w) → run (module_of pt) w Q.
Proof. done. Qed.

End WrapperRules.

(** One step of a wrapper, keeping what the file name was converted from
    and what the code generator returned. *)
Ltac wp_step :=
  lazy beta iota;
  lazymatch goal with
  | |- run (mbind _ _) _ _ => apply run_bind
  | |- run (mret _) _ _ => apply run_ret
  | |- run (raise _) _ _ => apply run_raise
  | |- run (update _) _ _ => apply run_update
  | |- run (arg_p _) _ _ => apply run_arg_p
  | |- run (arg_i _) _ _ => apply run_arg_i; [intros ? ? | intros ?]
  | |- run (arg_I _) _ _ => apply run_arg_I; [intros ? ? | intros ?]
  | |- run (arg_s _) _ _ => apply run_arg_s; [intros ? ? | intros ?]
  | |- run (arg_conv fs_convertor _ _) _ _ =>
      apply run_arg_fs_converted; [intros ? ? | intros ? ?]
  | |- run (arg_conv stringList_convertor _ _) _ _ =>
      apply run_arg_stringList; [intros ? ? ? | intros ? ?]
  | |- run (arg_conv_global stringList_convertor _ _ _) _ _ =>
      apply run_arg_global_stringList; [intros ? ? ? ? | intros ? ?]
  | |- run (arg_conv sipSpec_convertor _ _) _ _ =>
      apply run_arg_sipSpec; [intros ? ? ? ? | intros ? ? ?]
  | |- run (invoke _) _ _ => apply run_invoke_native; [intros ? ? | intros ? ? ?]
  | |- run (module_of _) _ _ => apply run_module_field
  | |- run malloc_sipSpec _ _ => apply run_malloc_sipSpec; intros ? ? ?
  | |- run (return_capsule _) _ _ =>
      apply run_return_capsule; [assumption | intros ? ?]
  end.

Ltac wp_arity :=
  unfold py_set_globals, py_parse, py_transform, py_generateCode,
    py_generateExtracts, py_generateAPI, py_generateXML, py_generateTypeHints;
  repeat (lazy beta iota;
          match goal with
          | |- run (match ?l with [] => _ | _ :: _ => _ end) _ _ =>
              destruct l as [|? ?]
          end);
  try apply run_raise.

(** One step of a wrapper, with the error of the conversion it makes. *)
Ltac wp_conv_step :=
  lazy beta iota;
  lazymatch goal with
  | |- run (arg_i ?a) _ _ =>
      apply (run_with_error unit_i a); [reflexivity|];
      apply run_arg_i; [intros ? ? ? | intros ? ?]
  | |- run (arg_I ?a) _ _ =>
      apply (run_with_error unit_I a); [reflexivity|];
      apply run_arg_I; [intros ? ? ? | intros ? ?]
  | |- run (arg_s ?a) _ _ =>
      apply (run_with_error unit_s a); [reflexivity|];
      apply run_arg_s; [intros ? ? ? | intros ? ?]
  | |- run (arg_conv fs_convertor ?a None) _ _ =>
      apply (run_with_error unit_fs a); [reflexivity|];
      apply run_arg_fs_converted; [intros ? ? ? | intros ? ? ?]
  | |- run (arg_conv stringList_convertor ?a []) _ _ =>
      apply (run_with_error unit_stringList a); [reflexivity|];
      apply run_arg_stringList; [intros ? ? ? ? | intros ? ? ?]
  | |- run (arg_conv_global stringList_convertor ?a _ _) _ _ =>
      apply (run_with_error unit_stringList a);
      [apply raised_arg_conv_global|];
      apply run_arg_global_stringList; [intros ? ? ? ? ? | intros ? ? ?]
  | |- _ => wp_step
  end.

(** The errors of the conversions made so far, put into the goal. *)
Ltac wp_use_errors w :=
  cbn [first_error format];
  repeat match goal with
         | H : ∀ w0, capsules w0 = _ → conversion_error _ _ w0 = _ |- _ =>
             cbn [raised snd PyErr PyErr_Set] in H;
             rewrite (H w eq_refl); clear H
         end;
  rewrite ?conversion_error_p;
  lazy beta iota.

Section WrapperCases.

Context `{Environment}.

(** X9: A tuple of the wrong size makes a wrapper other than [generateCode]
    return null with a [TypeError] set and nothing else changed: no argument
    is converted, no global is stored and the code generator is not
    called. *)
Theorem wrong_size_raises (m : method) (args : list PyObject) (w : world) :
  m ≠ generateCode →
  length args ≠ arity m →
  ∃ msg, methods m args w = ([], Raise (PyErr_Set (PyExc_TypeError msg) w)).
Proof.
  intros Hm Hne.
  destruct m; try done; simpl in Hne; cbn [methods];
    unfold py_set_globals, py_parse, py_transform, py_generateCode,
      py_generateExtracts, py_generateAPI, py_generateXML, py_generateTypeHints;
    do 13 (try (destruct args as [|? args];
                [first [by destruct Hne | by eexists]|]));
    first [by destruct Hne | by eexists].
Qed.

(** X10: In [transform], [generateExtracts], [generateAPI], [generateXML] and
    [generateTypeHints] the parse tree is the first argument converted: when
    [sipSpec_convertor] refuses it, the wrapper returns null with the
    convertor's error, the argument after it is not looked at and the code
    generator is not called. *)
Theorem handle_checked_first (m : method) (a0 : PyObject) (rest : list PyObject)
    (w : world) (v : ptr) (w' : world) :
  takes_handle m = true →
  m ≠ generateCode →
  length (a0 :: rest) = arity m →
  sipSpec_convertor a0 NULL w = (0, v, w') →
  methods m (a0 :: rest) w = ([], Raise w').
Proof.
  intros Hm Hgc Hlen Hc.
  destruct m; try discriminate; try done; simpl in Hlen; cbn [methods];
    unfold py_transform, py_generateCode, py_generateExtracts, py_generateAPI,
      py_generateXML, py_generateTypeHints;
    do 2 (try (destruct rest as [|? rest]; [try discriminate|]));
    try discriminate;
    lazy beta iota; unfold mbind, M_bind, bind, arg_conv; by rewrite Hc.
Qed.

Lemma methods_exit (m : method) (args : list PyObject) (w : world) :
  run (methods m args) w (λ tr o,
    ∀ status w', o = Exit status w' →
      ∃ c b p, tr = [c]
        ∧ native c (set_brk b (proc w)) = NExit status p
        ∧ w' = set_proc p w).
Proof.
  destruct m; cbn [methods]; wp_arity; repeat wp_step;
    lazy beta iota; simpl; intros; simplify_eq;
    destruct w as [[] ? ?]; simpl in *;
    eexists _, _, _; (split; [done|]); (split; [eassumption | reflexivity]).
Qed.

(** X11: A wrapper other than [generateCode] ends the process only when the
    code generator does, in the one call the wrapper made, and with the
    status the code generator gave; when [parse] ends this way no capsule
    has been made. *)
Theorem wrapper_exits_with_native (m : method) (args : list PyObject) (w : world)
    (tr : list native_call) (status : Z) (w' : world) :
  m ≠ generateCode →
  methods m args w = (tr, Exit status w') →
  wraps_native m = true
  ∧ capsules w' = capsules w
  ∧ PyErr w' = PyErr w
  ∧ ∃ c b p, tr = [c]
      ∧ native c (set_brk b (proc w)) = NExit status p
      ∧ proc w' = p.
Proof.
  intros _ Hm.
  destruct (run_elim _ _ _ _ _ (methods_exit m args w) Hm status w' eq_refl)
    as (c & b & p & -> & Hn & ->).
  split.
  - pose proof (run_elim _ _ _ _ _ (methods_calls m args w) Hm) as Hc.
    simpl in Hc. by destruct (wraps_native m).
  - do 2 (split; [done|]). by exists c, b, p.
Qed.

Lemma methods_raise (m : method) (args : list PyObject) (w : world) :
  m ≠ set_globals →
  run (methods m args) w (λ tr o,
    ∀ w', o = Raise w' → ∃ b e, w' = PyErr_Set e (set_proc (set_brk b (proc w)) w)).
Proof.
  intros Hm.
  destruct m; try done; cbn [methods]; wp_arity; repeat wp_step;
    lazy beta iota; simpl; intros; simplify_eq;
    destruct w as [[] ? ?]; simpl in *; by eexists _, _.
Qed.

(** X12: A wrapper other than [set_globals] and [generateCode] that returns
    null has changed the error indicator, and the allocation cursor where
    list nodes were allocated, and nothing else: the globals, the flags,
    [stderr], the memory of the code generator and the capsules are as they
    were. *)
Theorem failed_wrapper_changes (m : method) (args : list PyObject) (w : world)
    (tr : list native_call) (w' : world) :
  m ≠ set_globals →
  m ≠ generateCode →
  methods m args w = (tr, Raise w') →
  ∃ b e, w' = PyErr_Set e (set_proc (set_brk b (proc w)) w).
Proof.
  intros Hm _ Hrun.
  exact (run_elim _ _ _ _ _ (methods_raise m args w Hm) Hrun w' eq_refl).
Qed.

Lemma methods_return (m : method) (args : list PyObject) (w : world) :
  m ≠ parse →
  run (methods m args) w (λ tr o,
    ∀ r w', o = Ret r w' →
      r = Py_None ∧ PyErr w' = PyErr w ∧ capsules w' = capsules w).
Proof.
  intros Hm.
  destruct m; try done; cbn [methods]; wp_arity; repeat wp_step;
    lazy beta iota; simpl; intros; by simplify_eq.
Qed.

(** X13: [set_globals], [transform], [generateExtracts], [generateAPI],
    [generateXML] and [generateTypeHints] return [None] when they return an
    object, with the error indicator as it was and no capsule made, changed
    or removed. *)
Theorem wrapper_returns_None (m : method) (args : list PyObject) (w : world)
    (tr : list native_call) (r : PyObject) (w' : world) :
  m ≠ parse →
  m ≠ generateCode →
  methods m args w = (tr, Ret r w') →
  r = Py_None ∧ PyErr w' = PyErr w ∧ capsules w' = capsules w.
Proof.
  intros Hm _ Hrun.
  exact (run_elim _ _ _ _ _ (methods_return m args w Hm) Hrun r w' eq_refl).
Qed.

Lemma py_parse_call (a0 a1 a2 a3 a4 a5 a6 : PyObject) (w : world) :
  run (py_parse [a0; a1; a2; a3; a4; a5; a6]) w (λ tr o,
    first_error (format parse) [a0; a1; a2; a3; a4; a5; a6] w = None →
    ∃ pt file filename versions backstops xfeatures,
      tr = [N_parse pt file filename (PyObject_IsTrue a1) versions backstops
              xfeatures (kwArgs_of (PyObject_IsTrue a5)) (PyObject_IsTrue a6)]
      ∧ pt ≠ NULL
      ∧ ((a0 = Py_None ∧ file = FILE_stdin ∧ filename = Some "stdin")
         ∨ ∃ u bytes, a0 = PyUnicode u ∧ EncodeFSDefault u = inr bytes
                      ∧ file = FILE_NULL ∧ filename = Some (until_NUL bytes))).
Proof.
  unfold py_parse; repeat wp_conv_step; lazy beta iota; wp_use_errors w;
    intros Hnone; try discriminate; cbn [app];
    match goal with
    | Hfs : fs_converted _ _ |- _ =>
        destruct Hfs as [[-> ->]|(u & bytes & -> & Hu & ->)]
    end;
    eexists _, _, _, _, _, _; (split; [reflexivity|]); (split; [done|]);
    first [by left | right; by eexists _, _].
Qed.

(** X14: [parse], given seven objects that all convert, makes one call into
    the code generator: to read the standard input, under the name "stdin",
    when the first object is [None], and to read the file of the encoded
    name, with no stream, when it is a [str], the empty one included. The
    address it passes is not null, and the strict, keyword-argument and
    protected-hack arguments are the truth values of the second, sixth and
    seventh objects. *)
Theorem parse_reads_stdin_for_None (a0 a1 a2 a3 a4 a5 a6 : PyObject) (w : world)
    (tr : list native_call) (o : outcome PyObject) :
  py_parse [a0; a1; a2; a3; a4; a5; a6] w = (tr, o) →
  first_error (format parse) [a0; a1; a2; a3; a4; a5; a6] w = None →
  ∃ pt file filename versions backstops xfeatures,
    tr = [N_parse pt file filename (PyObject_IsTrue a1) versions backstops
            xfeatures (kwArgs_of (PyObject_IsTrue a5)) (PyObject_IsTrue a6)]
    ∧ pt ≠ NULL
    ∧ ((a0 = Py_None ∧ file = FILE_stdin ∧ filename = Some "stdin")
       ∨ ∃ u bytes, a0 = PyUnicode u ∧ EncodeFSDefault u = inr bytes
                    ∧ file = FILE_NULL ∧ filename = Some (until_NUL bytes)).
Proof.
  intros Hrun Hnone.
  exact (run_elim _ _ _ _ _ (py_parse_call a0 a1 a2 a3 a4 a5 a6 w) Hrun Hnone).
Qed.

Lemma generator_module (m : method) (ob : nat) (pt : ptr) (a1 : PyObject)
    (w : world) :
  wraps ob pt w →
  run (methods m [PyCapsule ob; a1]) w (λ tr o,
    is_Some (generator_call m pt NULL None) →
    conversion_error unit_fs a1 w = None →
    ∃ file c, fs_converted a1 file
              ∧ generator_call m pt (module_field (proc w) pt) file = Some c
              ∧ tr = [c]).
Proof.
  intros Hw.
  destruct m; cbn [methods]; wp_arity; repeat wp_conv_step; lazy beta iota;
    intros [x Hx]; try discriminate;
    repeat match goal with
           | Hs : sipSpec_convertor (PyCapsule ob) _ w = _ |- _ =>
               rewrite (sipSpec_convertor_wraps ob pt _ w Hw) in Hs; simplify_eq
           end;
    repeat match goal with
           | He : ∀ w0, capsules w0 = _ → conversion_error unit_fs _ w0 = _ |- _ =>
               cbn [raised snd PyErr PyErr_Set] in He; rewrite (He w eq_refl);
               clear He
           end;
    intros Hnone; try discriminate; cbn [app];
    eexists _, _; (split; [eassumption|]); by split.
Qed.

(** X15: [generateAPI], [generateXML] and [generateTypeHints], given a capsule
    that wraps a parse tree and a file name that converts, make one call,
    to their generator, with the address of the tree, the [module] field the
    tree has in memory when the wrapper is called, and the converted file
    name, which is null for [None]. *)
Theorem generator_gets_module (m : method) (ob : nat) (pt : ptr) (a1 : PyObject)
    (w : world) (tr : list native_call) (o : outcome PyObject) :
  m = generateAPI ∨ m = generateXML ∨ m = generateTypeHints →
  wraps ob pt w →
  conversion_error unit_fs a1 w = None →
  methods m [PyCapsule ob; a1] w = (tr, o) →
  ∃ file c, fs_converted a1 file
            ∧ generator_call m pt (module_field (proc w) pt) file = Some c
            ∧ tr = [c].
Proof.
  intros Hm Hw Hfs Hrun.
  apply (run_elim _ _ _ _ _ (generator_module m ob pt a1 w Hw) Hrun); [|done].
  by destruct Hm as [-> | [-> | ->]].
Qed.


(** X17: [set_globals] with an [int], a [str] without a null character, a list
    of [str] items that encode and two more objects returns [None], calls
    nothing and stores: the version modulo 2^32, the UTF-8 form of the
    string, the encoded list in place of whatever list there was, and the
    truth values of the last two objects as the two warning flags. *)
Theorem set_globals_stores (a0 a3 a4 : PyObject) (n : Z) (u : list Z) (s : string)
    (us : list (list Z)) (bs : list string) (w : world) :
  as_long a0 = Some n →
  AsUTF8 u = inr s →
  existsb (Z.eqb 0) u = false →
  Forall2 (λ u b, EncodeLocale u = inr b) us bs →
  methods set_globals [a0; PyUnicode u; PyList (PyUnicode <$> us); a3; a4] w =
    ([], Ret Py_None
           (set_proc
              (set_warnings_are_fatal (PyObject_IsTrue a4)
                 (set_warnings (PyObject_IsTrue a3)
                    (set_includeDirList (Some <$> bs)
                       (after_nodes (length us)
                          (set_sipVersionStr (Some s)
                             (set_sipVersion (n mod 2 ^ 32) (proc w)))))))
              w)).
Proof.
  intros Ha0 Hs Hnull Hall. cbn [methods]. unfold py_set_globals.
  unfold mbind, M_bind, bind, arg_I, arg_s, arg_conv_global, arg_p, update,
    mret, M_ret, ret.
  rewrite Ha0, Hs, Hnull. cbn [fst snd app].
  unfold stringList_convertor.
  rewrite <- (app_nil_r (PyUnicode <$> us)).
  rewrite (stringList_items_encoded us bs) by done.
  cbn [stringList_items app]. by destruct w as [[] ? ?].
Qed.

(** X18: [set_globals] stores argument by argument: when the second argument is
    not a [str] the call fails with a [TypeError] and the version is stored
    all the same; when the third is neither [None] nor a list the call fails
    with a [TypeError], the version and its string are stored and the list
    of include directories is empty, whatever it was. *)
Theorem set_globals_not_atomic (a0 a1 a2 a3 a4 : PyObject) (n : Z) (w : world) :
  as_long a0 = Some n →
  ((∀ u, a1 ≠ PyUnicode u) →
   ∃ msg,
     methods set_globals [a0; a1; a2; a3; a4] w =
       ([], Raise (PyErr_Set (PyExc_TypeError msg)
                     (set_proc (set_sipVersion (n mod 2 ^ 32) (proc w)) w))))
  ∧ (∀ u s,
       a1 = PyUnicode u → AsUTF8 u = inr s → existsb (Z.eqb 0) u = false →
       a2 ≠ Py_None → PyList_Check a2 = false →
       ∃ msg,
         methods set_globals [a0; a1; a2; a3; a4] w =
           ([], Raise (PyErr_Set (PyExc_TypeError msg)
                         (set_proc
                            (set_includeDirList []
                               (set_sipVersionStr (Some s)
                                  (set_sipVersion (n mod 2 ^ 32) (proc w))))
                            w)))).
Proof.
  intros Ha0. split.
  - intros Ha1. eexists. cbn [methods]. unfold py_set_globals.
    unfold mbind, M_bind, bind, arg_I, arg_s, update, mret, M_ret, ret.
    rewrite Ha0. cbn [fst snd app].
    destruct a1; try reflexivity. by destruct (Ha1 u).
  - intros u s -> Hs Hnull Hnone Hlist. eexists. cbn [methods].
    unfold py_set_globals.
    unfold mbind, M_bind, bind, arg_I, arg_s, arg_conv_global, update,
      mret, M_ret, ret.
    rewrite Ha0, Hs, Hnull. cbn [fst snd app].
    destruct a2; try done; by destruct w as [[] ? ?].
Qed.

Lemma set_globals_flags (a0 a1 a2 a3 a4 : PyObject) (w : world) :
  run (methods set_globals [a0; a1; a2; a3; a4]) w (λ tr o,
    ∀ r w', o = Ret r w' →
      warnings (proc w') = PyObject_IsTrue a3
      ∧ warnings_are_fatal (proc w') = PyObject_IsTrue a4
      ∧ warning_start (proc w') = warning_start (proc w)
      ∧ fatalStart_start (proc w') = fatalStart_start (proc w)
      ∧ stderr (proc w') = stderr (proc w)).
Proof.
  cbn [methods]. unfold py_set_globals. repeat wp_step. all: lazy beta iota.
  all: simpl; intros; by simplify_eq.
Qed.

(** X19: After [set_globals] has returned, the two warning flags are the truth
    values of its fourth and fifth arguments, while [stderr] and the two
    [start] flags are as they were. So a [ParserWarning] reported next is
    discarded when the fourth argument was false, and ends the process with
    status 1 when both were true and its format has a line terminator. *)
Theorem set_globals_sets_policy (a0 a1 a2 a3 a4 : PyObject) (w : world)
    (tr : list native_call) (r : PyObject) (w' : world) :
  methods set_globals [a0; a1; a2; a3; a4] w = (tr, Ret r w') →
  (warnings (proc w') = PyObject_IsTrue a3
   ∧ warnings_are_fatal (proc w') = PyObject_IsTrue a4
   ∧ warning_start (proc w') = warning_start (proc w)
   ∧ fatalStart_start (proc w') = fatalStart_start (proc w)
   ∧ stderr (proc w') = stderr (proc w))
  ∧ (PyObject_IsTrue a3 = false →
     ∀ fmt ap, warning ParserWarning fmt ap (proc w') = NRet tt (proc w'))
  ∧ (PyObject_IsTrue a3 = true → PyObject_IsTrue a4 = true →
     ∀ fmt ap, completes fmt = true →
       exit_status (warning ParserWarning fmt ap (proc w')) = Some 1).
Proof.
  intros Hrun.
  pose proof (run_elim _ _ _ _ _ (set_globals_flags a0 a1 a2 a3 a4 w) Hrun
                r w' eq_refl) as Hflags.
  split; [exact Hflags|]. destruct Hflags as (Hw & Hf & _).
  split.
  - intros Ha3 fmt ap. apply warning_discards. by rewrite Hw.
  - intros Ha3 Ha4 fmt ap Hc.
    rewrite warning_unfold by (simpl; by rewrite Hw, Ha3).
    by rewrite Hc, Hf, Ha4.
Qed.

End WrapperCases.

(** ** The theorems at the examples *)

Lemma warning_suppressed_leaves_state_witness :
  warnings initial_process = false
  ∧ (@warning example_env ParserWarning (line "unused") [] initial_process =
       NRet tt initial_process
     ∧ ∀ calls,
         @warning_run example_env calls initial_process =
         @warning_run example_env
           (filter (λ c, c.1.1 = DeprecationWarning) calls) initial_process).
Proof.
  split; [reflexivity|].
  apply (@warning_suppressed_leaves_state example_env). reflexivity.
Defined.

Lemma warning_categories_witness :
  exit_status (@warning example_env DeprecationWarning (line "%s is deprecated")
                 [va_str "/Deprecated/"] strict_process) = Some 1
  ∧ exit_status (@warning example_env ParserWarning (line "%s is deprecated")
                   [va_str "/Deprecated/"] strict_process) = Some 1.
Proof.
  pose proof (@warning_categories example_env (line "%s is deprecated")
                [va_str "/Deprecated/"] strict_process) as (_ & _ & _ & Hexit).
  split; [apply (Hexit DeprecationWarning) | apply (Hexit ParserWarning)];
    reflexivity.
Defined.

(** A [DeprecationWarning] whose line terminator comes from an argument:
    the line is written whole, warnings are fatal, and the call returns. *)
Lemma warning_deprecation_line_not_fatal :
  warnings_are_fatal strict_process = true
  ∧ stderr (final (@warning example_env DeprecationWarning "%s"
                     [va_str (line "/Deprecated/ is deprecated")]
                     strict_process)) =
    line "sip5: Deprecation warning: /Deprecated/ is deprecated"
  ∧ strchr (line "sip5: Deprecation warning: /Deprecated/ is deprecated")
      newline = Some 53%nat
  ∧ exit_status (@warning example_env DeprecationWarning "%s"
                   [va_str (line "/Deprecated/ is deprecated")]
                   strict_process) = None.
Proof. repeat split. Qed.

(** A fragment whose expansion has a line terminator that comes from an
    argument, the format having none: with warnings on and fatal, the call
    returns, and [start] stays off. *)
Lemma warning_newline_from_argument :
  suppressed ParserWarning strict_process = false
  ∧ warnings_are_fatal strict_process = true
  ∧ @vsprintf example_env "%s" [va_str (line "unexpected token")] =
      line "unexpected token"
  ∧ strchr (line "unexpected token") newline = Some 16%nat
  ∧ exit_status (@warning example_env ParserWarning "%s"
                   [va_str (line "unexpected token")] strict_process) = None
  ∧ warning_start (final (@warning example_env ParserWarning "%s"
                            [va_str (line "unexpected token")] strict_process))
    = false.
Proof. repeat split. Qed.

Lemma warning_completes_on_format_newline_witness :
  suppressed ParserWarning strict_process = false
  ∧ completes (line "%s:%d: unexpected token") = true
  ∧ @warning example_env ParserWarning (line "%s:%d: unexpected token")
      [va_str "QtCore.sip"; va_int 12] strict_process =
    NExit 1
      (set_warning_start false
         (set_stderr (line "sip5: Parser warning: QtCore.sip:12: unexpected token")
            strict_process)).
Proof.
  split; [reflexivity|]. split; [reflexivity|].
  pose proof (@warning_completes_on_format_newline example_env ParserWarning
                (line "%s:%d: unexpected token")
                [va_str "QtCore.sip"; va_int 12] strict_process
                eq_refl eq_refl) as [[Hone _] _].
  exact Hone.
Defined.

Lemma fs_convertor_cases_witness :
  @fs_convertor example_env Py_None (Some "unset") initial_world =
    (1, None, initial_world)
  ∧ @fs_convertor example_env (py_str "") None initial_world =
      (1, Some "", initial_world)
  ∧ @fs_convertor example_env (PyUnicode [97; 0; 98]) None initial_world =
      (1, Some "a", initial_world)
  ∧ @fs_convertor example_env (PyUnicode [55357]) (Some "unset") initial_world =
      (0, Some "unset", PyErr_Set (PyExc_UnicodeEncodeError "utf-8") initial_world).
Proof.
  pose proof (@fs_convertor_cases example_env) as Hfs.
  split; [apply (Hfs (Some "unset") initial_world)|].
  split; [|split].
  - exact (proj1 (proj2 (Hfs None initial_world)) []).
  - exact (proj1 (proj2 (Hfs None initial_world)) [97; 0; 98]).
  - exact (proj1 (proj2 (Hfs (Some "unset") initial_world)) [55357]).
Defined.

(** A list of [str] items of which the second is a lone surrogate: the
    convertor returns 0. *)
Lemma stringList_convertor_lone_surrogate :
  (@stringList_convertor example_env
     (PyList [py_str "Qt_5_12"; PyUnicode [55357]]) [] initial_world).1 =
  (0, [Some "Qt_5_12"]).
Proof. reflexivity. Qed.

Lemma stringList_convertor_encodable_witness :
  Forall2 (λ u b, @EncodeLocale example_env u = inr b)
    [code_points "Qt_5_12"; code_points "WS_X11"] ["Qt_5_12"; "WS_X11"]
  ∧ (@stringList_convertor example_env
       (PyList (PyUnicode <$> [code_points "Qt_5_12"; code_points "WS_X11"]))
       [] initial_world).1 =
    (1, [Some "Qt_5_12"; Some "WS_X11"]).
Proof.
  assert (Hall : Forall2 (λ u b, @EncodeLocale example_env u = inr b)
            [code_points "Qt_5_12"; code_points "WS_X11"] ["Qt_5_12"; "WS_X11"])
    by (repeat constructor).
  split; [exact Hall|].
  destruct (@stringList_convertor_encodable example_env _ _ [] initial_world Hall)
    as [Heq _].
  rewrite Heq. reflexivity.
Defined.

Lemma stringList_convertor_unencodable_witness :
  Exists (λ u, ∃ e, @EncodeLocale example_env u = inl e)
    [code_points "Qt_5_12"; [55357]; code_points "WS_X11"]
  ∧ ∃ pre u post bs e,
      [code_points "Qt_5_12"; [55357]; code_points "WS_X11"] = pre ++ u :: post
      ∧ Forall2 (λ u b, @EncodeLocale example_env u = inr b) pre bs
      ∧ @EncodeLocale example_env u = inl e
      ∧ @stringList_convertor example_env
          (PyList (PyUnicode <$>
                     [code_points "Qt_5_12"; [55357]; code_points "WS_X11"]))
          [] initial_world =
        (0, Some <$> bs,
         PyErr_Set (encode_exc e)
           (set_proc (@after_nodes example_env (length pre) (proc initial_world))
              initial_world))
      ∧ (length bs < 3)%nat.
Proof.
  assert (Hex : Exists (λ u, ∃ e, @EncodeLocale example_env u = inl e)
            [code_points "Qt_5_12"; [55357]; code_points "WS_X11"]).
  { apply Exists_cons_tl, Exists_cons_hd. by eexists. }
  split; [exact Hex|].
  exact (@stringList_convertor_unencodable example_env _ [] initial_world Hex).
Defined.

(** A list whose second item is an [int]: the convertor returns 0 with the
    [TypeError] of a bad argument, not that of the list check, and the
    first item is in the variable. *)
Lemma stringList_convertor_mixed_list :
  (@stringList_convertor example_env (PyList [py_str "Qt_5_12"; PyLong 1])
     [] initial_world).1 =
  (0, [Some "Qt_5_12"])
  ∧ PyErr (@stringList_convertor example_env (PyList [py_str "Qt_5_12"; PyLong 1])
             [] initial_world).2 =
    Some (PyExc_TypeError "bad argument type for built-in operation").
Proof. split; reflexivity. Qed.

Lemma stringList_convertor_type_error_witness :
  @stringList_convertor example_env (PyLong 5) [Some "unset"] initial_world =
    (0, [], PyErr_Set (PyExc_TypeError "list of str expected") initial_world)
  ∧ (@stringList_convertor example_env
       (PyList ((PyUnicode <$> [code_points "Qt_5_12"]) ++ PyLong 1 :: []))
       [Some "unset"] initial_world).1 =
    (0, [Some "Qt_5_12"])
  ∧ Exists (λ item, ∀ u, item ≠ PyUnicode u) [PyUnicode [55357]; PyLong 1]
  ∧ ∃ us bs item rest e,
      [PyUnicode [55357]; PyLong 1] = (PyUnicode <$> us) ++ item :: rest
      ∧ Forall2 (λ u b, @EncodeLocale example_env u = inr b) us bs
      ∧ (((∀ u, item ≠ PyUnicode u) ∧ e = bad_argument)
         ∨ ∃ u ee, item = PyUnicode u ∧ @EncodeLocale example_env u = inl ee
                   ∧ e = encode_exc ee)
      ∧ @stringList_convertor example_env (PyList [PyUnicode [55357]; PyLong 1])
          [Some "unset"] initial_world =
        (0, Some <$> bs,
         PyErr_Set e
           (set_proc (@after_nodes example_env (length us) (proc initial_world))
              initial_world))
      ∧ (length bs < 2)%nat.
Proof.
  destruct (@stringList_convertor_type_error example_env [Some "unset"]
              initial_world) as (Hother & Hitem & Hany).
  assert (Hex : Exists (λ item, ∀ u, item ≠ PyUnicode u)
                  [PyUnicode [55357]; PyLong 1]).
  { apply Exists_cons_tl, Exists_cons_hd. discriminate. }
  split; [|split; [|split]].
  - apply Hother; [discriminate | reflexivity].
  - rewrite (Hitem [code_points "Qt_5_12"] ["Qt_5_12"] (PyLong 1) []);
      [reflexivity | repeat constructor | discriminate].
  - exact Hex.
  - exact (Hany _ Hex).
Defined.




Lemma warning_label_shared_witness :
  suppressed DeprecationWarning loud_process = false
  ∧ suppressed ParserWarning loud_process = false
  ∧ completes "%s is deprecated, " = false
  ∧ stderr (final (@warning_run example_env
                     [(DeprecationWarning, "%s is deprecated, ", [va_str "/In/"]);
                      (ParserWarning, line "use %s", [va_str "/Out/"])]
                     loud_process)) =
    line "sip5: Deprecation warning: /In/ is deprecated, use /Out/".
Proof.
  do 3 (split; [reflexivity|]).
  refine (eq_trans
            (@warning_label_shared example_env DeprecationWarning ParserWarning
               "%s is deprecated, " (line "use %s") [va_str "/In/"]
               [va_str "/Out/"] loud_process eq_refl eq_refl eq_refl) _).
  reflexivity.
Defined.

Lemma fatal_after_warnings_witness :
  @warning_run example_env
    [(ParserWarning, "%s:%d: ", [va_str "QtCore.sip"; va_int 3])] loud_process =
    NRet tt
      (set_warning_start false
         (set_stderr "sip5: Parser warning: QtCore.sip:3: " loud_process))
  ∧ stderr (final (@fatal example_env (line "%s") [va_str "syntax error"]
                     (set_warning_start false
                        (set_stderr "sip5: Parser warning: QtCore.sip:3: "
                           loud_process)))) =
    line "sip5: Parser warning: QtCore.sip:3: sip5: syntax error".
Proof.
  assert (Hrun : @warning_run example_env
            [(ParserWarning, "%s:%d: ", [va_str "QtCore.sip"; va_int 3])]
            loud_process =
          NRet tt
            (set_warning_start false
               (set_stderr "sip5: Parser warning: QtCore.sip:3: " loud_process)))
    by reflexivity.
  split; [exact Hrun|].
  refine (eq_trans
            (proj2 (@fatal_after_warnings example_env _ (line "%s")
                      [va_str "syntax error"] _ _ Hrun)) _).
  reflexivity.
Defined.

Lemma stringList_convertor_length_witness :
  @stringList_convertor example_env
    (PyList [py_str "Qt_5_12"; PyLong 1; py_str "WS_X11"]) [] initial_world =
    (0, [Some "Qt_5_12"],
     PyErr_Set bad_argument
       (set_proc (set_brk 4112 initial_process) initial_world))
  ∧ (0 = 1 ↔ length [Some "Qt_5_12"] = 3%nat)
  ∧ (length [Some "Qt_5_12"] ≤ 3)%nat.
Proof.
  assert (Hrun : @stringList_convertor example_env
            (PyList [py_str "Qt_5_12"; PyLong 1; py_str "WS_X11"]) []
            initial_world =
          (0, [Some "Qt_5_12"],
           PyErr_Set bad_argument
             (set_proc (set_brk 4112 initial_process) initial_world)))
    by reflexivity.
  split; [exact Hrun|].
  destruct (@stringList_convertor_length example_env _ _ _ _ _ _ Hrun)
    as (_ & Hiff & Hle & _).
  split; [exact Hiff | exact Hle].
Defined.

Lemma fs_convertor_other_witness :
  PyLong 3 ≠ Py_None
  ∧ (∀ u, PyLong 3 ≠ PyUnicode u)
  ∧ @fs_convertor example_env (PyLong 3) (Some "unset") initial_world =
    (0, Some "unset", PyErr_Set bad_argument initial_world).
Proof.
  split; [discriminate|]. split; [discriminate|].
  apply (@fs_convertor_other example_env); discriminate.
Defined.

Lemma wrong_size_raises_witness :
  transform ≠ generateCode
  ∧ length [Py_None] ≠ arity transform
  ∧ ∃ msg,
      @methods example_env transform [Py_None] initial_world =
      ([], Raise (PyErr_Set (PyExc_TypeError msg) initial_world)).
Proof.
  split; [discriminate|]. split; [discriminate|].
  apply (@wrong_size_raises example_env transform [Py_None] initial_world);
    discriminate.
Defined.

Lemma handle_checked_first_witness :
  sipSpec_convertor (py_str "tree") NULL initial_world =
    (0, NULL, PyErr_Set (PyExc_TypeError "parse tree expected") initial_world)
  ∧ generateExtracts ≠ generateCode
  ∧ @methods example_env generateExtracts [py_str "tree"; PyLong 7]
      initial_world =
    ([], Raise (PyErr_Set (PyExc_TypeError "parse tree expected") initial_world)).
Proof.
  split; [reflexivity|]. split; [discriminate|].
  apply (@handle_checked_first example_env generateExtracts (py_str "tree")
           [PyLong 7] initial_world NULL);
    [reflexivity | discriminate | reflexivity | reflexivity].
Defined.

Lemma wrapper_exits_with_native_witness :
  @methods failing_env parse
    [py_str "missing.sip"; PyBool false; Py_None; Py_None; Py_None; PyBool false;
     PyBool false] initial_world =
    ([N_parse 4096%N FILE_NULL (Some "missing.sip") false [] [] [] NoKwArgs false],
     Exit 1
       (mkWorld
          (mkProcess 0 None [] false false true false
             (line "sip5: Unable to open file") 4352 ∅)
          None ∅))
  ∧ parse ≠ generateCode
  ∧ capsules
      (mkWorld
         (mkProcess 0 None [] false false true false
            (line "sip5: Unable to open file") 4352 ∅)
         None ∅) =
    capsules initial_world.
Proof.
  assert (Hrun : @methods failing_env parse
            [py_str "missing.sip"; PyBool false; Py_None; Py_None; Py_None;
             PyBool false; PyBool false] initial_world =
          ([N_parse 4096%N FILE_NULL (Some "missing.sip") false [] [] []
              NoKwArgs false],
           Exit 1
             (mkWorld
                (mkProcess 0 None [] false false true false
                   (line "sip5: Unable to open file") 4352 ∅)
                None ∅)))
    by (vm_compute; reflexivity).
  assert (Hm : parse ≠ generateCode) by discriminate.
  split; [exact Hrun|]. split; [exact Hm|].
  exact (proj1 (proj2 (@wrapper_exits_with_native failing_env _ _ _ _ _ _
                         Hm Hrun))).
Defined.

Lemma failed_wrapper_changes_witness :
  parse ≠ set_globals
  ∧ parse ≠ generateCode
  ∧ @methods example_env parse
      [Py_None; PyBool false; PyList [py_str "Qt_5_12"]; PyLong 1; Py_None;
       PyBool false; PyBool false] initial_world =
    ([], Raise (PyErr_Set (PyExc_TypeError "list of str expected")
                  (set_proc (set_brk 4112 initial_process) initial_world)))
  ∧ ∃ b e,
      PyErr_Set (PyExc_TypeError "list of str expected")
        (set_proc (set_brk 4112 initial_process) initial_world) =
      PyErr_Set e (set_proc (set_brk b (proc initial_world)) initial_world).
Proof.
  assert (Hrun : @methods example_env parse
            [Py_None; PyBool false; PyList [py_str "Qt_5_12"]; PyLong 1; Py_None;
             PyBool false; PyBool false] initial_world =
          ([], Raise (PyErr_Set (PyExc_TypeError "list of str expected")
                        (set_proc (set_brk 4112 initial_process) initial_world))))
    by (vm_compute; reflexivity).
  split; [discriminate|]. split; [discriminate|]. split; [exact Hrun|].
  eapply (@failed_wrapper_changes example_env parse);
    [discriminate | discriminate | exact Hrun].
Defined.

Lemma wrapper_returns_None_witness :
  transform ≠ parse
  ∧ transform ≠ generateCode
  ∧ @methods example_env transform [PyCapsule 0; PyBool true] parsed_world =
    ([N_transform 4112%N true], Ret Py_None parsed_world)
  ∧ Py_None = Py_None
  ∧ PyErr parsed_world = PyErr parsed_world
  ∧ capsules parsed_world = capsules parsed_world.
Proof.
  assert (Hrun : @methods example_env transform [PyCapsule 0; PyBool true]
                   parsed_world =
                 ([N_transform 4112%N true], Ret Py_None parsed_world))
    by (vm_compute; reflexivity).
  split; [discriminate|]. split; [discriminate|]. split; [exact Hrun|].
  eapply (@wrapper_returns_None example_env transform);
    [discriminate | discriminate | exact Hrun].
Defined.

Lemma parse_reads_stdin_for_None_witness :
  @py_parse example_env parse_stdin_args initial_world =
    ([parse_stdin_call], Ret (PyCapsule 0) parsed_world)
  ∧ @first_error example_env (format parse) parse_stdin_args
      initial_world = None
  ∧ ∃ pt file filename versions backstops xfeatures,
      [parse_stdin_call] =
        [N_parse pt file filename false versions backstops xfeatures NoKwArgs
           false]
      ∧ pt ≠ NULL
      ∧ ((Py_None = Py_None ∧ file = FILE_stdin ∧ filename = Some "stdin")
         ∨ ∃ u bytes, Py_None = PyUnicode u
                      ∧ @EncodeFSDefault example_env u = inr bytes
                      ∧ file = FILE_NULL ∧ filename = Some (until_NUL bytes)).
Proof.
  assert (Hrun : @py_parse example_env parse_stdin_args initial_world =
                 ([parse_stdin_call], Ret (PyCapsule 0) parsed_world))
    by (vm_compute; reflexivity).
  assert (Hnone : @first_error example_env (format parse)
                    parse_stdin_args initial_world = None)
    by (vm_compute; reflexivity).
  split; [exact Hrun|]. split; [exact Hnone|].
  exact (@parse_reads_stdin_for_None example_env _ _ _ _ _ _ _ _ _ _ Hrun Hnone).
Defined.

Lemma generator_gets_module_witness :
  wraps 0 4112%N parsed_world
  ∧ @conversion_error example_env unit_fs (py_str "QtCore.api") parsed_world =
    None
  ∧ @methods example_env generateAPI [PyCapsule 0; py_str "QtCore.api"]
      parsed_world =
    ([N_generateAPI 4112%N 4120%N (Some "QtCore.api")], Ret Py_None parsed_world)
  ∧ @methods example_env generateXML [PyCapsule 0; Py_None] parsed_world =
    ([N_generateXML 4112%N 4120%N None], Ret Py_None parsed_world)
  ∧ @methods example_env generateTypeHints [PyCapsule 0; py_str ""] parsed_world =
    ([N_generateTypeHints 4112%N 4120%N (Some "")], Ret Py_None parsed_world)
  ∧ (∃ file c,
       @fs_converted example_env (py_str "QtCore.api") file
       ∧ generator_call generateAPI 4112%N
           (@module_field example_env (proc parsed_world) 4112%N) file = Some c
       ∧ [N_generateAPI 4112%N 4120%N (Some "QtCore.api")] = [c])
  ∧ (∃ file c,
       @fs_converted example_env Py_None file
       ∧ generator_call generateXML 4112%N
           (@module_field example_env (proc parsed_world) 4112%N) file = Some c
       ∧ [N_generateXML 4112%N 4120%N None] = [c])
  ∧ (∃ file c,
       @fs_converted example_env (py_str "") file
       ∧ generator_call generateTypeHints 4112%N
           (@module_field example_env (proc parsed_world) 4112%N) file = Some c
       ∧ [N_generateTypeHints 4112%N 4120%N (Some "")] = [c]).
Proof.
  assert (Hw : wraps 0 4112%N parsed_world) by (split; [discriminate | reflexivity]).
  assert (Hapi : @methods example_env generateAPI
            [PyCapsule 0; py_str "QtCore.api"] parsed_world =
          ([N_generateAPI 4112%N 4120%N (Some "QtCore.api")],
           Ret Py_None parsed_world))
    by (vm_compute; reflexivity).
  assert (Hxml : @methods example_env generateXML [PyCapsule 0; Py_None]
                   parsed_world =
                 ([N_generateXML 4112%N 4120%N None], Ret Py_None parsed_world))
    by (vm_compute; reflexivity).
  assert (Hpyi : @methods example_env generateTypeHints [PyCapsule 0; py_str ""]
                   parsed_world =
                 ([N_generateTypeHints 4112%N 4120%N (Some "")],
                  Ret Py_None parsed_world))
    by (vm_compute; reflexivity).
  split; [exact Hw|]. split; [reflexivity|].
  split; [exact Hapi|]. split; [exact Hxml|]. split; [exact Hpyi|].
  split; [|split].
  - exact (@generator_gets_module example_env generateAPI 0%nat 4112%N
             (py_str "QtCore.api") parsed_world _ _ (or_introl eq_refl) Hw
             eq_refl Hapi).
  - exact (@generator_gets_module example_env generateXML 0%nat 4112%N
             Py_None parsed_world _ _ (or_intror (or_introl eq_refl)) Hw
             eq_refl Hxml).
  - exact (@generator_gets_module example_env generateTypeHints 0%nat 4112%N
             (py_str "") parsed_world _ _ (or_intror (or_intror eq_refl)) Hw
             eq_refl Hpyi).
Defined.


Lemma set_globals_stores_witness :
  as_long (PyLong 327680) = Some 327680
  ∧ @AsUTF8 example_env (code_points "5.0.0") = inr "5.0.0"
  ∧ existsb (Z.eqb 0) (code_points "5.0.0") = false
  ∧ Forall2 (λ u b, @EncodeLocale example_env u = inr b)
      [code_points "/usr/share/sip"] ["/usr/share/sip"]
  ∧ @methods example_env set_globals
      [PyLong 327680; PyUnicode (code_points "5.0.0");
       PyList (PyUnicode <$> [code_points "/usr/share/sip"]); PyBool true;
       PyBool false] initial_world =
    ([], Ret Py_None
           (mkWorld
              (mkProcess 327680 (Some "5.0.0") [Some "/usr/share/sip"] true false
                 true true "" 4112 ∅)
              None ∅)).
Proof.
  assert (Hall : Forall2 (λ u b, @EncodeLocale example_env u = inr b)
            [code_points "/usr/share/sip"] ["/usr/share/sip"])
    by (repeat constructor).
  do 3 (split; [reflexivity|]). split; [exact Hall|].
  refine (eq_trans
            (@set_globals_stores example_env (PyLong 327680) (PyBool true)
               (PyBool false) 327680 (code_points "5.0.0") "5.0.0"
               [code_points "/usr/share/sip"] ["/usr/share/sip"] initial_world
               eq_refl eq_refl eq_refl Hall) _).
  reflexivity.
Defined.

Lemma set_globals_not_atomic_witness :
  as_long (PyLong 327680) = Some 327680
  ∧ (∀ u, PyLong 5 ≠ PyUnicode u)
  ∧ ∃ msg,
      @methods example_env set_globals
        [PyLong 327680; PyLong 5; Py_None; PyBool true; PyBool true]
        initial_world =
      ([], Raise (PyErr_Set (PyExc_TypeError msg)
                    (set_proc (set_sipVersion (327680 mod 2 ^ 32)
                                 (proc initial_world)) initial_world))).
Proof.
  split; [reflexivity|]. split; [discriminate|].
  apply (proj1 (@set_globals_not_atomic example_env (PyLong 327680) (PyLong 5)
                  Py_None (PyBool true) (PyBool true) 327680 initial_world
                  eq_refl)).
  discriminate.
Defined.

Lemma set_globals_sets_policy_witness :
  @methods example_env set_globals set_globals_args initial_world =
    ([], Ret Py_None
           (mkWorld
              (mkProcess 327680 (Some "5.0.0") [Some "/usr/share/sip"] true false
                 true true "" 4112 ∅)
              None ∅))
  ∧ warnings
      (mkProcess 327680 (Some "5.0.0") [Some "/usr/share/sip"] true false
         true true "" 4112 ∅) =
    PyObject_IsTrue (PyBool true).
Proof.
  assert (Hrun : @methods example_env set_globals set_globals_args initial_world =
            ([], Ret Py_None
                   (mkWorld
                      (mkProcess 327680 (Some "5.0.0") [Some "/usr/share/sip"]
                         true false true true "" 4112 ∅)
                      None ∅)))
    by (vm_compute; reflexivity).
  split; [exact Hrun|].
  exact (proj1 (proj1 (@set_globals_sets_policy example_env _ _ _ _ _ _ _ _ _
                         Hrun))).
Defined.
